(** * ZenML server excerpt: artifact workspace-scoping migration and REST route layer

    Shallow embedding of
    - [src/zenml/zen_stores/migrations/versions/41b28cae31ce_make_artifacts_workspace_scoped.py]
      (module [Migration], facts in [MigrationFacts]);
    - [src/zenml/zen_server/routers/code_repositories_endpoints.py] and
      [src/zenml/zen_server/routers/pipeline_deployments_endpoints.py]
      (modules [Server], [Routing] and one module per source file, facts in
      [RouteFacts]);
    - [examples/cortex/predict.py] (module [predict]).
    Further facts are in [MigrationExtras], [RouteExtras] and
    [PredictExtras]. *)

From stdpp Require Import gmap strings list fin_maps.

Set Default Proof Using "Type".

(** Python exceptions: the class name and the message. *)
Record Exn := { exn_class : string; exn_msg : string }.

(** Result of a call that may raise. *)
Inductive Outcome (A : Type) : Type :=
| Ok (a : A)
| Raise (e : Exn).
Arguments Ok {A} a.
Arguments Raise {A} e.

(* ===================================================================== *)
(** * The migration 41b28cae31ce                                          *)
(* ===================================================================== *)

Module Migration.

(** ** Relational store *)

(** SQL values: GUIDs (128-bit numbers) and text. *)
Inductive Value :=
| VGuid (g : N)
| VText (s : string).

(** A cell of a row: SQL NULL or a value. *)
Inductive Cell :=
| NULL
| Val (v : Value).

#[global] Instance Value_eq_dec : EqDecision Value.
Proof. solve_decision. Defined.
#[global] Instance Cell_eq_dec : EqDecision Cell.
Proof. solve_decision. Defined.

(** [sa.Column(name, type, nullable=...)] *)
Record Column := {
  col_name : string;
  col_type : string;
  col_nullable : bool }.

(** A foreign key constraint, as given to [create_foreign_key]. *)
Record ForeignKey := {
  fk_name : string;
  fk_referent : string;
  fk_local_cols : list string;
  fk_remote_cols : list string;
  fk_ondelete : string }.

(** A row maps column names to cells. *)
Abbreviation Row := (gmap string Cell).

(** A table: its schema (columns in order, foreign keys in order of
    creation) and its rows in storage order. *)
Record Table := {
  columns : list Column;
  foreign_keys : list ForeignKey;
  rows : list Row }.

(** The schema of a table is what remains when the rows are left out. *)
Definition schema (t : Table) : list Column * list ForeignKey :=
  (columns t, foreign_keys t).

(** The database: tables by name. *)
Abbreviation Database := (gmap string Table).

(** ** Operations on the connection: state passing with exceptions.
    An exception leaves the effects of the statements issued before it. *)

Definition Op (A : Type) : Type := Database → Outcome A * Database.

#[global] Instance Op_ret : MRet Op := λ A a db, (Ok a, db).
#[global] Instance Op_bind : MBind Op := λ A B f m db,
  match m db with
  | (Ok a, db') => f a db'
  | (Raise e, db') => (Raise e, db')
  end.

Definition raise {A} (e : Exn) : Op A := λ db, (Raise e, db).

Definition Exception (msg : string) : Exn :=
  {| exn_class := "Exception"; exn_msg := msg |}.
Definition OperationalError (msg : string) : Exn :=
  {| exn_class := "OperationalError"; exn_msg := msg |}.
Definition IntegrityError (msg : string) : Exn :=
  {| exn_class := "IntegrityError"; exn_msg := msg |}.

(** ** Alembic batch operations (the calls made on [batch_op]) *)

Inductive BatchOp :=
| add_column (c : Column)
| alter_column (column_name existing_type : string) (nullable : bool)
| create_foreign_key (constraint_name referent_table : string)
    (local_cols remote_cols : list string) (ondelete : string)
| drop_constraint (constraint_name type_ : string)
| drop_column (column_name : string).

Definition has_column (name : string) (t : Table) : bool :=
  bool_decide (name ∈ col_name <$> columns t).

Definition has_constraint (name : string) (t : Table) : bool :=
  bool_decide (name ∈ fk_name <$> foreign_keys t).

(** A row holds NULL in a column when the cell is NULL or missing. *)
Definition is_null (name : string) (r : Row) : bool :=
  match r !! name with
  | Some (Val _) => false
  | _ => true
  end.

Definition set_nullable (name : string) (b : bool) (c : Column) : Column :=
  if decide (col_name c = name)
  then {| col_name := col_name c; col_type := col_type c; col_nullable := b |}
  else c.

(** The effect of one batch operation on the table. *)
Definition apply_op (o : BatchOp) (t : Table) : Outcome Table :=
  match o with
  | add_column c =>
      if has_column (col_name c) t
      then Raise (OperationalError "duplicate column name")
      else if negb (col_nullable c) && negb (bool_decide (rows t = []))
      then Raise (IntegrityError "cannot add a NOT NULL column without default")
      else Ok {| columns := columns t ++ [c];
                 foreign_keys := foreign_keys t;
                 rows := insert (col_name c) NULL <$> rows t |}
  | alter_column name _ nullable =>
      if negb (has_column name t)
      then Raise (OperationalError "no such column")
      else if negb nullable && existsb (is_null name) (rows t)
      then Raise (IntegrityError "column contains NULL values")
      else Ok {| columns := set_nullable name nullable <$> columns t;
                 foreign_keys := foreign_keys t;
                 rows := rows t |}
  | create_foreign_key name referent local_cols remote_cols ondelete =>
      if has_constraint name t
      then Raise (OperationalError "duplicate constraint name")
      else if negb (forallb (λ c, has_column c t) local_cols)
      then Raise (OperationalError "no such column")
      else Ok {| columns := columns t;
                 foreign_keys := foreign_keys t ++
                   [{| fk_name := name; fk_referent := referent;
                       fk_local_cols := local_cols;
                       fk_remote_cols := remote_cols;
                       fk_ondelete := ondelete |}];
                 rows := rows t |}
  | drop_constraint name _ =>
      if negb (has_constraint name t)
      then Raise (OperationalError "no such constraint")
      else Ok {| columns := columns t;
                 foreign_keys := filter (λ k, fk_name k ≠ name) (foreign_keys t);
                 rows := rows t |}
  | drop_column name =>
      if negb (has_column name t)
      then Raise (OperationalError "no such column")
      else Ok {| columns := filter (λ c, col_name c ≠ name) (columns t);
                 foreign_keys := foreign_keys t;
                 rows := delete name <$> rows t |}
  end.

(** The operations recorded in a [with op.batch_alter_table(...)] block
    are applied, in order, when the block is left. *)
Fixpoint apply_ops (os : list BatchOp) (t : Table) : Outcome Table :=
  match os with
  | [] => Ok t
  | o :: os' =>
      match apply_op o t with
      | Ok t' => apply_ops os' t'
      | Raise e => Raise e
      end
  end.

(** [with op.batch_alter_table(table_name, schema=None) as batch_op: ...]:
    the table is replaced by the altered one when every operation of the
    block succeeded. *)
Definition batch_alter_table (table_name : string) (os : list BatchOp) : Op unit :=
  λ db,
    match db !! table_name with
    | None => (Raise (OperationalError "no such table"), db)
    | Some t =>
        match apply_ops os t with
        | Ok t' => (Ok (), <[table_name := t']> db)
        | Raise e => (Raise e, db)
        end
    end.

(** [table(name, ...).update().values(column=value)]: an UPDATE without
    WHERE clause. *)
Record Update := {
  upd_table : string;
  upd_column : string;
  upd_value : Value }.

(** [op.execute(update)] *)
Definition execute (u : Update) : Op unit :=
  λ db,
    match db !! upd_table u with
    | None => (Raise (OperationalError "no such table"), db)
    | Some t =>
        if negb (has_column (upd_column u) t)
        then (Raise (OperationalError "no such column"), db)
        else (Ok (), <[upd_table u :=
                 {| columns := columns t;
                    foreign_keys := foreign_keys t;
                    rows := insert (upd_column u) (Val (upd_value u)) <$> rows t |}]> db)
    end.

(** Rows of [t] whose [name] column equals the text [n], in storage order. *)
Definition where_name (n : string) (rs : list Row) : list Row :=
  filter (λ r, r !! "name" = Some (Val (VText n))) rs.

(** [connection.execute(sa.text("SELECT id FROM <table> WHERE name = :n
    LIMIT 1"), {"n": n}).scalar()]: the [id] of the first matching row,
    [None] when there is no row or the value is NULL. *)
Definition select_id_where_name_limit_1 (table_name n : string) : Op (option Value) :=
  λ db,
    match db !! table_name with
    | None => (Raise (OperationalError "no such table"), db)
    | Some t =>
        (Ok (match where_name n (rows t) with
             | [] => None
             | r :: _ =>
                 match r !! "id" with
                 | Some (Val v) => Some v
                 | _ => None
                 end
             end), db)
    end.

(** [os.getenv(key, default)] *)
Definition getenv (environ : gmap string string) (key default : string) : string :=
  match environ !! key with
  | Some v => v
  | None => default
  end.

Definition GUID : string := "GUID".

Section Revision.

(** The two constants imported from [zenml.constants]. *)
Variables ENV_ZENML_DEFAULT_WORKSPACE_NAME DEFAULT_WORKSPACE_NAME : string.

(** The process environment. *)
Variable environ : gmap string string.

Definition default_workspace_name : string :=
  getenv environ ENV_ZENML_DEFAULT_WORKSPACE_NAME DEFAULT_WORKSPACE_NAME.

(** First block of [upgrade]: the two columns, nullable. *)
Definition upgrade_add_columns : list BatchOp :=
  [ add_column {| col_name := "workspace_id"; col_type := GUID; col_nullable := true |};
    add_column {| col_name := "user_id"; col_type := GUID; col_nullable := true |} ].

(** Second block of [upgrade]: NOT NULL and the foreign keys. *)
Definition upgrade_tighten : list BatchOp :=
  [ alter_column "workspace_id" GUID false;
    create_foreign_key "fk_artifact_workspace_id_workspace" "workspace"
      ["workspace_id"] ["id"] "CASCADE";
    create_foreign_key "fk_artifact_user_id_user" "user"
      ["user_id"] ["id"] "SET NULL" ].

Definition upgrade : Op unit :=
  batch_alter_table "artifact" upgrade_add_columns;;
  default_workspace_id ← select_id_where_name_limit_1 "workspace" default_workspace_name;
  match default_workspace_id with
  | None =>
      raise (Exception "Default workspace not found. Cannot proceed with migration.")
  | Some default_workspace_id =>
      execute {| upd_table := "artifact"; upd_column := "workspace_id";
                 upd_value := default_workspace_id |};;
      batch_alter_table "artifact" upgrade_tighten
  end.

(** The block of [downgrade]. *)
Definition downgrade_ops : list BatchOp :=
  [ drop_constraint "fk_artifact_user_id_user" "foreignkey";
    drop_constraint "fk_artifact_workspace_id_workspace" "foreignkey";
    drop_column "user_id";
    drop_column "workspace_id" ].

Definition downgrade : Op unit :=
  batch_alter_table "artifact" downgrade_ops.

End Revision.

(** ** States reached by [upgrade], and the objects it creates *)

Definition workspace_id_column (nullable : bool) : Column :=
  {| col_name := "workspace_id"; col_type := GUID; col_nullable := nullable |}.

Definition user_id_column : Column :=
  {| col_name := "user_id"; col_type := GUID; col_nullable := true |}.

Definition fk_artifact_workspace_id_workspace : ForeignKey :=
  {| fk_name := "fk_artifact_workspace_id_workspace"; fk_referent := "workspace";
     fk_local_cols := ["workspace_id"]; fk_remote_cols := ["id"];
     fk_ondelete := "CASCADE" |}.

Definition fk_artifact_user_id_user : ForeignKey :=
  {| fk_name := "fk_artifact_user_id_user"; fk_referent := "user";
     fk_local_cols := ["user_id"]; fk_remote_cols := ["id"];
     fk_ondelete := "SET NULL" |}.

(** The artifact table after the first block of [upgrade]. *)
Definition with_new_columns (t : Table) : Table :=
  {| columns := columns t ++ [workspace_id_column true; user_id_column];
     foreign_keys := foreign_keys t;
     rows := insert "user_id" NULL <$> (insert "workspace_id" NULL <$> rows t) |}.

(** The artifact table after the UPDATE. *)
Definition backfilled (d : Value) (t : Table) : Table :=
  {| columns := columns t;
     foreign_keys := foreign_keys t;
     rows := insert "workspace_id" (Val d) <$> rows t |}.

(** The artifact table after the second block. *)
Definition tightened (t : Table) : Table :=
  {| columns := set_nullable "workspace_id" false <$> columns t;
     foreign_keys := foreign_keys t ++
       [fk_artifact_workspace_id_workspace; fk_artifact_user_id_user];
     rows := rows t |}.

(** The exception raised by [upgrade] itself. *)
Definition default_workspace_not_found : Exn :=
  Exception "Default workspace not found. Cannot proceed with migration.".

(** ** A small database to run the revision on *)

Definition id_column : Column :=
  {| col_name := "id"; col_type := GUID; col_nullable := false |}.
Definition name_column : Column :=
  {| col_name := "name"; col_type := "VARCHAR"; col_nullable := false |}.

Definition entity (i : N) (n : string) : Row :=
  {[ "id" := Val (VGuid i); "name" := Val (VText n) ]}.

Definition example_artifact : Table :=
  {| columns := [id_column; name_column];
     foreign_keys := [];
     rows := [entity 10 "model"; entity 11 "dataset"] |}.

Definition example_workspace : Table :=
  {| columns := [id_column; name_column];
     foreign_keys := [];
     rows := [entity 1 "staging"; entity 2 "default"; entity 3 "default"] |}.

Definition example_db : Database :=
  {[ "artifact" := example_artifact; "workspace" := example_workspace ]}.

Definition scoped (i : N) (n : string) (w : N) : Row :=
  <["workspace_id" := Val (VGuid w)]> (<["user_id" := NULL]> (entity i n)).

(** [example_db] after [upgrade] with an empty environment. *)
Definition example_upgraded : Database :=
  {[ "artifact" :=
       {| columns := [id_column; name_column; workspace_id_column false; user_id_column];
          foreign_keys := [fk_artifact_workspace_id_workspace; fk_artifact_user_id_user];
          rows := [scoped 10 "model" 2; scoped 11 "dataset" 2] |};
     "workspace" := example_workspace ]}.

(** A database whose workspace table has no row named "default". *)
Definition example_other_workspace : Table :=
  {| columns := [id_column; name_column];
     foreign_keys := [];
     rows := [entity 1 "staging"] |}.

Definition example_db_without_default : Database :=
  {[ "artifact" := example_artifact; "workspace" := example_other_workspace ]}.

End Migration.

(* ===================================================================== *)
(** * The route layer                                                     *)
(* ===================================================================== *)

(** What the two router modules share: the models they pass around, the
    calls they make on their collaborators (the store, the RBAC dispatch
    of [zenml.zen_server.rbac.endpoint_utils], the workload manager) and
    the execution of a handler against arbitrary collaborators.

    The decorator [handle_exceptions] only turns an exception that left the
    handler into an error response; the model stops at that exception. *)
Module Server.

Definition UUID : Type := N.

(** [Union[str, UUID]] *)
Inductive NameOrId :=
| Name (s : string)
| Id (u : UUID).

(** Truth value of a [Union[str, UUID]] in an [if]: a string is true when
    it is not empty, a UUID always. *)
Definition truthy (w : NameOrId) : bool :=
  match w with
  | Name EmptyString => false
  | Name (String _ _) => true
  | Id _ => true
  end.

(** The models of [zenml.models], with the attributes the handlers read
    or write; the remaining attributes are kept as name/value pairs. *)
Record WorkspaceResponse := {
  ws_id : UUID;
  ws_name : string }.

(** [CodeRepositoryRequest], [PipelineDeploymentRequest] *)
Record RequestModel := {
  workspace : UUID;
  request_attrs : list (string * string) }.

(** [request.workspace = workspace_id] *)
Definition with_workspace (workspace_id : UUID) (request : RequestModel) : RequestModel :=
  {| workspace := workspace_id; request_attrs := request_attrs request |}.

(** [CodeRepositoryFilter], [PipelineDeploymentFilter] *)
Record FilterModel := {
  scope_workspace : option UUID;
  filter_attrs : list (string * string) }.

(** Modelled from the spec: the method [set_scope_workspace] of the filter
    models (in [zenml.models]) is missing; it restricts the query to the
    given workspace identifier. *)
Definition set_scope_workspace (workspace_id : UUID) (filter_model : FilterModel)
  : FilterModel :=
  {| scope_workspace := Some workspace_id; filter_attrs := filter_attrs filter_model |}.

(** [CodeRepositoryUpdate] *)
Record UpdateModel := {
  update_attrs : list (string * string) }.

(** [CodeRepositoryResponse], [PipelineDeploymentResponse] *)
Record ResponseModel := {
  resp_id : UUID;
  resp_attrs : list (string * string) }.

(** [Page[...]] *)
Definition Page : Type := list ResponseModel.

Record AuthContext := {
  auth_user : UUID }.

Inductive ResourceType :=
| CODE_REPOSITORY
| PIPELINE_DEPLOYMENT.

(** The bound methods of [zen_store()] that the handlers hand over. *)
Module zen_store.
Inductive method :=
| create_code_repository
| list_code_repositories
| get_code_repository
| update_code_repository
| delete_code_repository
| create_deployment
| list_deployments
| get_deployment
| delete_deployment.
End zen_store.

(** Calls on the collaborators, indexed by the type of what they return.
    The first eight are made by the handlers; [verify_permission] and the
    [store_*] calls are made inside the dispatch functions. *)
Inductive Call : Type → Type :=
| authorize : Call AuthContext
| get_workspace (workspace_name_or_id : NameOrId) : Call WorkspaceResponse
| verify_permissions_and_create_entity (request_model : RequestModel)
    (resource_type : ResourceType) (create_method : zen_store.method)
    : Call ResponseModel
| verify_permissions_and_list_entities (filter_model : FilterModel)
    (resource_type : ResourceType) (list_method : zen_store.method)
    (hydrate : bool) : Call Page
| verify_permissions_and_get_entity (id : UUID) (get_method : zen_store.method)
    (hydrate : bool) : Call ResponseModel
| verify_permissions_and_update_entity (id : UUID) (update_model : UpdateModel)
    (get_method update_method : zen_store.method) : Call ResponseModel
| verify_permissions_and_delete_entity (id : UUID)
    (get_method delete_method : zen_store.method) : Call ResponseModel
| get_logs (workload_id : UUID) : Call string
| verify_permission {X} (request : Call X) : Call unit
| store_create (m : zen_store.method) (request : RequestModel) : Call ResponseModel
| store_list (m : zen_store.method) (filter_model : FilterModel) (hydrate : bool)
    : Call Page
| store_get (m : zen_store.method) (id : UUID) (hydrate : bool) : Call ResponseModel
| store_update (m : zen_store.method) (id : UUID) (update : UpdateModel)
    : Call ResponseModel
| store_delete (m : zen_store.method) (id : UUID) : Call unit.

(** Handler code: return a value, raise, or call a collaborator and go on
    with what it returned. An exception raised by the collaborator ends
    the handler. *)
Inductive Prog (A : Type) : Type :=
| Ret (a : A)
| Throw (e : Exn)
| Vis {X : Type} (c : Call X) (k : X → Prog A).
Arguments Ret {A} a.
Arguments Throw {A} e.
Arguments Vis {A X} c k.

Fixpoint bind {A B} (p : Prog A) (f : A → Prog B) : Prog B :=
  match p with
  | Ret a => f a
  | Throw e => Throw e
  | Vis c k => Vis c (λ x, bind (k x) f)
  end.

#[global] Instance Prog_ret : MRet Prog := λ A a, Ret a.
#[global] Instance Prog_bind : MBind Prog := λ A B f p, bind p f.

Definition call {X} (c : Call X) : Prog X := Vis c Ret.

(** One call as seen from outside: the call and how it ended. *)
Inductive Obs :=
| Observed {X : Type} (c : Call X) (r : Outcome X).

(** The collaborators: any state, any answer to any call. *)
Definition Responder (W : Type) : Type := ∀ X, Call X → W → Outcome X * W.

(** Running a handler: the outcome, the calls made in order, the final
    state of the collaborators. *)
Fixpoint run {W A} (h : Responder W) (p : Prog A) (s : W)
  : Outcome A * list Obs * W :=
  match p with
  | Ret a => (Ok a, [], s)
  | Throw e => (Raise e, [], s)
  | Vis c k =>
      match h _ c s with
      | (Ok x, s1) =>
          let '(o, tr, s2) := run h (k x) s1 in
          (o, Observed c (Ok x) :: tr, s2)
      | (Raise e, s1) => (Raise e, [Observed c (Raise e)], s1)
      end
  end.

Definition trace {W A} (h : Responder W) (p : Prog A) (s : W) : list Obs :=
  (run h p s).1.2.

(** ** What a trace shows *)

(** The dispatch requests [verify_permissions_and_*], without result type. *)
Inductive Dispatch :=
| create_entity (request_model : RequestModel) (resource_type : ResourceType)
    (create_method : zen_store.method)
| list_entities (filter_model : FilterModel) (resource_type : ResourceType)
    (list_method : zen_store.method) (hydrate : bool)
| get_entity (id : UUID) (get_method : zen_store.method) (hydrate : bool)
| update_entity (id : UUID) (update_model : UpdateModel)
    (get_method update_method : zen_store.method)
| delete_entity (id : UUID) (get_method delete_method : zen_store.method).

Definition dispatch_of {X} (c : Call X) : option Dispatch :=
  match c with
  | verify_permissions_and_create_entity r t m => Some (create_entity r t m)
  | verify_permissions_and_list_entities f t m b => Some (list_entities f t m b)
  | verify_permissions_and_get_entity i m b => Some (get_entity i m b)
  | verify_permissions_and_update_entity i u g m => Some (update_entity i u g m)
  | verify_permissions_and_delete_entity i g m => Some (delete_entity i g m)
  | _ => None
  end.

(** The dispatch requests of a trace, in order. *)
Definition dispatched (tr : list Obs) : list Dispatch :=
  omap (λ o, match o with Observed c _ => dispatch_of c end) tr.

(** The workspace lookups of a trace, in order. *)
Definition lookups (tr : list Obs) : list NameOrId :=
  omap (λ o, match o with
             | Observed (get_workspace w) _ => Some w
             | _ => None
             end) tr.

(** The [hydrate] flags handed to the dispatch, in order. *)
Definition hydrate_flags (tr : list Obs) : list bool :=
  omap (λ d, match d with
             | list_entities _ _ _ b | get_entity _ _ b => Some b
             | _ => None
             end) (dispatched tr).

Definition is_store_call (o : Obs) : bool :=
  match o with
  | Observed (store_create _ _) _ | Observed (store_list _ _ _) _
  | Observed (store_get _ _ _) _ | Observed (store_update _ _ _) _
  | Observed (store_delete _ _) _ => true
  | _ => false
  end.

Definition is_authorized (o : Obs) : bool :=
  match o with
  | Observed authorize (Ok _) => true
  | _ => false
  end.

Definition is_permitted (o : Obs) : bool :=
  match o with
  | Observed (verify_permission _) (Ok _) => true
  | _ => false
  end.

(** Every store call of the trace comes after a successful [authorize] and
    a successful [verify_permission]. *)
Definition store_gated (tr : list Obs) : Prop :=
  ∀ before o after,
    tr = before ++ o :: after →
    is_store_call o = true →
    ∃ i j, i < j ∧
      is_authorized <$> before !! i = Some true ∧
      is_permitted <$> before !! j = Some true.

(** ** The dispatch functions *)

(** How a dispatch function uses the store methods it was given once the
    permission is verified. *)
Definition Delegate : Type := ∀ X, Call X → Prog X.

(** Modelled from the spec: the functions [verify_permissions_and_*] of
    [zenml.zen_server.rbac.endpoint_utils] are missing. Following "authorize,
    resolve workspace, delegate to store method, return" and "RBAC: gating
    each endpoint's entity-level permissions", a dispatch function verifies the
    permission for its request and, when that succeeds, delegates to
    the store methods it was given. *)
Definition endpoint_utils (delegate : Delegate) : ∀ X, Call X → Prog X :=
  λ X c,
    match dispatch_of c with
    | Some _ => call (verify_permission c);; delegate X c
    | None => call c
    end.

(** A handler with the dispatch calls replaced by their code. *)
Fixpoint expand (impl : ∀ X, Call X → Prog X) {A} (p : Prog A) : Prog A :=
  match p with
  | Ret a => Ret a
  | Throw e => Throw e
  | Vis c k => bind (impl _ c) (λ x, expand impl (k x))
  end.

(** A delegate that calls the store methods directly: the entity is
    fetched with the [get_method] before it is updated or deleted. *)
Definition store_delegate : Delegate :=
  λ X c,
    match c in Call X return Prog X with
    | verify_permissions_and_create_entity r _ m => call (store_create m r)
    | verify_permissions_and_list_entities f _ m b => call (store_list m f b)
    | verify_permissions_and_get_entity i m b => call (store_get m i b)
    | verify_permissions_and_update_entity i u g m =>
        model ← call (store_get g i true);
        call (store_update m (resp_id model) u)
    | verify_permissions_and_delete_entity i g m =>
        model ← call (store_get g i true);
        call (store_delete m (resp_id model));;
        mret model
    | c => call c
    end.

(** ** Shapes of handler runs *)

(** A run that resolves the workspace [w] and hands [dispatch] the id of
    what it found: [authorize] failed, or the lookup failed, or the
    dispatch was called and its outcome is the outcome of the handler. *)
Definition scoped_run {A} (w : NameOrId) (dispatch : UUID → Call A)
    (o : Outcome A) (tr : list Obs) : Prop :=
  (∃ e, tr = [Observed authorize (Raise e)] ∧ o = Raise e) ∨
  (∃ a e, tr = [Observed authorize (Ok a); Observed (get_workspace w) (Raise e)]
          ∧ o = Raise e) ∨
  (∃ a ws, tr = [Observed authorize (Ok a); Observed (get_workspace w) (Ok ws);
                 Observed (dispatch (ws_id ws)) o]).

(** A run of the log endpoint: the permission-checked retrieval, then
    [get_logs] with the id of the deployment retrieved. *)
Definition logs_run (deployment_id : UUID) (o : Outcome string) (tr : list Obs)
  : Prop :=
  let retrieval := verify_permissions_and_get_entity deployment_id
                     zen_store.get_deployment true in
  (∃ e, tr = [Observed authorize (Raise e)] ∧ o = Raise e) ∨
  (∃ a e, tr = [Observed authorize (Ok a); Observed retrieval (Raise e)]
          ∧ o = Raise e) ∨
  (∃ a deployment,
      tr = [Observed authorize (Ok a); Observed retrieval (Ok deployment);
            Observed (get_logs (resp_id deployment)) o]).

(** The step of a request a call belongs to: authorize (0), resolve the
    workspace (1), dispatch (2); 3 for any other call. *)
Definition phase (o : Obs) : nat :=
  match o with
  | Observed authorize _ => 0
  | Observed (get_workspace _) _ => 1
  | Observed c _ => match dispatch_of c with Some _ => 2 | None => 3 end
  end.

(** The calls of the trace are: authorize, then at most one workspace
    lookup, then the dispatch, and nothing else; a trace may stop early. *)
Definition in_route_order (tr : list Obs) : Prop :=
  (phase <$> tr) `prefix_of` [0; 1; 2] ∨ (phase <$> tr) `prefix_of` [0; 2].

(** ** Collaborators to run the handlers against *)

Definition KeyError (msg : string) : Exn :=
  {| exn_class := "KeyError"; exn_msg := msg |}.

(** The workspaces of the example store. *)
Definition example_workspaces : list WorkspaceResponse :=
  [ {| ws_id := 7%N; ws_name := "default" |};
    {| ws_id := 8%N; ws_name := "staging" |} ].

Definition find_workspace (w : NameOrId) (ws : list WorkspaceResponse)
  : option WorkspaceResponse :=
  match w with
  | Name n => head (filter (λ x, ws_name x = n) ws)
  | Id u => head (filter (λ x, ws_id x = u) ws)
  end.

(** A store that knows some workspaces and answers every other call; the
    state is the list of workspaces. *)
Definition example_responder : Responder (list WorkspaceResponse) :=
  λ X c ws,
    match c in Call X return Outcome X * list WorkspaceResponse with
    | authorize => (Ok {| auth_user := 1%N |}, ws)
    | get_workspace w =>
        match find_workspace w ws with
        | Some x => (Ok x, ws)
        | None => (Raise (KeyError "workspace not found"), ws)
        end
    | verify_permissions_and_create_entity r _ _ =>
        (Ok {| resp_id := 100%N; resp_attrs := request_attrs r |}, ws)
    | verify_permissions_and_list_entities _ _ _ _ => (Ok [], ws)
    | verify_permissions_and_get_entity i _ _ =>
        (Ok {| resp_id := i; resp_attrs := [] |}, ws)
    | verify_permissions_and_update_entity i u _ _ =>
        (Ok {| resp_id := i; resp_attrs := update_attrs u |}, ws)
    | verify_permissions_and_delete_entity i _ _ =>
        (Ok {| resp_id := i; resp_attrs := [] |}, ws)
    | get_logs i => (Ok "logs", ws)
    | verify_permission _ => (Ok (), ws)
    | store_create _ r => (Ok {| resp_id := 100%N; resp_attrs := request_attrs r |}, ws)
    | store_list _ _ _ => (Ok [], ws)
    | store_get _ i _ => (Ok {| resp_id := i; resp_attrs := [] |}, ws)
    | store_update _ i u => (Ok {| resp_id := i; resp_attrs := update_attrs u |}, ws)
    | store_delete _ _ => (Ok (), ws)
    end.

(** A request that names workspace 5 in its body. *)
Definition example_request : RequestModel :=
  {| workspace := 5%N; request_attrs := [("name", "repo")] |}.

End Server.

(** ** Route registration *)

Module Routing.

Inductive Verb := GET | POST | PUT | DELETE.

(** The router a route is registered on: the module's own [router], with
    its prefix, or the [workspace_router] imported from
    [workspaces_endpoints]. *)
Inductive Router :=
| router (prefix : string)
| workspace_router.

Record Route := {
  route_router : Router;
  route_verb : Verb;
  route_path : string;
  route_endpoint : string }.

#[global] Instance Verb_eq_dec : EqDecision Verb.
Proof. solve_decision. Defined.
#[global] Instance Router_eq_dec : EqDecision Router.
Proof. solve_decision. Defined.
#[global] Instance Route_eq_dec : EqDecision Route.
Proof. solve_decision. Defined.

(** [server_config()] *)
Record ServerConfiguration := {
  workload_manager_enabled : bool }.

End Routing.

(* ===================================================================== *)
(** * code_repositories_endpoints.py                                      *)
(* ===================================================================== *)

Module code_repositories_endpoints.
Import Server Routing.

Definition create_code_repository (code_repository : RequestModel)
    (workspace_name_or_id : option NameOrId) : Prog ResponseModel :=
  _ ← call authorize;
  code_repository ←
    match workspace_name_or_id with
    | Some w =>
        if truthy w then
          workspace ← call (get_workspace w);
          mret (with_workspace (ws_id workspace) code_repository)
        else mret code_repository
    | None => mret code_repository
    end;
  call (verify_permissions_and_create_entity code_repository CODE_REPOSITORY
          zen_store.create_code_repository).

Definition list_code_repositories (filter_model : FilterModel)
    (workspace_name_or_id : option NameOrId) (hydrate : option bool) : Prog Page :=
  let hydrate := default false hydrate in
  _ ← call authorize;
  filter_model ←
    match workspace_name_or_id with
    | Some w =>
        if truthy w then
          workspace ← call (get_workspace w);
          mret (set_scope_workspace (ws_id workspace) filter_model)
        else mret filter_model
    | None => mret filter_model
    end;
  call (verify_permissions_and_list_entities filter_model CODE_REPOSITORY
          zen_store.list_code_repositories hydrate).

Definition get_code_repository (code_repository_id : UUID) (hydrate : option bool)
  : Prog ResponseModel :=
  let hydrate := default true hydrate in
  _ ← call authorize;
  call (verify_permissions_and_get_entity code_repository_id
          zen_store.get_code_repository hydrate).

Definition update_code_repository (code_repository_id : UUID) (update : UpdateModel)
  : Prog ResponseModel :=
  _ ← call authorize;
  call (verify_permissions_and_update_entity code_repository_id update
          zen_store.get_code_repository zen_store.update_code_repository).

Definition delete_code_repository (code_repository_id : UUID) : Prog unit :=
  _ ← call authorize;
  call (verify_permissions_and_delete_entity code_repository_id
          zen_store.get_code_repository zen_store.delete_code_repository);;
  mret ().

Section Routes.
(** Constants of [zenml.constants]. *)
Variables API VERSION_1 CODE_REPOSITORIES : string.

Definition routes : list Route :=
  let router := router (API +:+ VERSION_1 +:+ CODE_REPOSITORIES) in
  [ {| route_router := workspace_router; route_verb := POST;
       route_path := "/{workspace_name_or_id}" +:+ CODE_REPOSITORIES;
       route_endpoint := "create_code_repository" |};
    {| route_router := router; route_verb := POST;
       route_path := EmptyString;
       route_endpoint := "create_code_repository" |};
    {| route_router := workspace_router; route_verb := GET;
       route_path := "/{workspace_name_or_id}" +:+ CODE_REPOSITORIES;
       route_endpoint := "list_code_repositories" |};
    {| route_router := router; route_verb := GET;
       route_path := EmptyString;
       route_endpoint := "list_code_repositories" |};
    {| route_router := router; route_verb := GET;
       route_path := "/{code_repository_id}";
       route_endpoint := "get_code_repository" |};
    {| route_router := router; route_verb := PUT;
       route_path := "/{code_repository_id}";
       route_endpoint := "update_code_repository" |};
    {| route_router := router; route_verb := DELETE;
       route_path := "/{code_repository_id}";
       route_endpoint := "delete_code_repository" |} ].
End Routes.

End code_repositories_endpoints.

(* ===================================================================== *)
(** * pipeline_deployments_endpoints.py                                   *)
(* ===================================================================== *)

Module pipeline_deployments_endpoints.
Import Server Routing.

Definition create_deployment (deployment : RequestModel)
    (workspace_name_or_id : option NameOrId) : Prog ResponseModel :=
  _ ← call authorize;
  deployment ←
    match workspace_name_or_id with
    | Some w =>
        if truthy w then
          workspace ← call (get_workspace w);
          mret (with_workspace (ws_id workspace) deployment)
        else mret deployment
    | None => mret deployment
    end;
  call (verify_permissions_and_create_entity deployment PIPELINE_DEPLOYMENT
          zen_store.create_deployment).

Definition list_deployments (deployment_filter_model : FilterModel)
    (workspace_name_or_id : option NameOrId) (hydrate : option bool) : Prog Page :=
  let hydrate := default false hydrate in
  _ ← call authorize;
  deployment_filter_model ←
    match workspace_name_or_id with
    | Some w =>
        if truthy w then
          workspace ← call (get_workspace w);
          mret (set_scope_workspace (ws_id workspace) deployment_filter_model)
        else mret deployment_filter_model
    | None => mret deployment_filter_model
    end;
  call (verify_permissions_and_list_entities deployment_filter_model
          PIPELINE_DEPLOYMENT zen_store.list_deployments hydrate).

Definition get_deployment (deployment_id : UUID) (hydrate : option bool)
  : Prog ResponseModel :=
  let hydrate := default true hydrate in
  _ ← call authorize;
  call (verify_permissions_and_get_entity deployment_id zen_store.get_deployment
          hydrate).

Definition delete_deployment (deployment_id : UUID) : Prog unit :=
  _ ← call authorize;
  call (verify_permissions_and_delete_entity deployment_id
          zen_store.get_deployment zen_store.delete_deployment);;
  mret ().

Definition deployment_logs (deployment_id : UUID) : Prog string :=
  _ ← call authorize;
  deployment ← call (verify_permissions_and_get_entity deployment_id
                       zen_store.get_deployment true);
  call (get_logs (resp_id deployment)).

Section Routes.
(** Constants of [zenml.constants]. *)
Variables API VERSION_1 PIPELINE_DEPLOYMENTS : string.

(** The route of [deployment_logs]. *)
Definition logs_route : Route :=
  {| route_router := router (API +:+ VERSION_1 +:+ PIPELINE_DEPLOYMENTS);
     route_verb := GET;
     route_path := "/{deployment_id}/logs";
     route_endpoint := "deployment_logs" |}.

Definition routes (server_config : ServerConfiguration) : list Route :=
  let router := router (API +:+ VERSION_1 +:+ PIPELINE_DEPLOYMENTS) in
  [ {| route_router := workspace_router; route_verb := POST;
       route_path := "/{workspace_name_or_id}" +:+ PIPELINE_DEPLOYMENTS;
       route_endpoint := "create_deployment" |};
    {| route_router := router; route_verb := POST;
       route_path := EmptyString;
       route_endpoint := "create_deployment" |};
    {| route_router := workspace_router; route_verb := GET;
       route_path := "/{workspace_name_or_id}" +:+ PIPELINE_DEPLOYMENTS;
       route_endpoint := "list_deployments" |};
    {| route_router := router; route_verb := GET;
       route_path := EmptyString;
       route_endpoint := "list_deployments" |};
    {| route_router := router; route_verb := GET;
       route_path := "/{deployment_id}";
       route_endpoint := "get_deployment" |};
    {| route_router := router; route_verb := DELETE;
       route_path := "/{deployment_id}";
       route_endpoint := "delete_deployment" |} ]
  ++ (if workload_manager_enabled server_config then [logs_route] else []).
End Routes.

End pipeline_deployments_endpoints.

(* ===================================================================== *)
(** * States and shapes used by the further facts                         *)
(* ===================================================================== *)

Module MigrationStates.
Import Migration.

(** An operation that changes no table other than [t], whatever its
    outcome. *)
Definition touches_only {A} (t : string) (m : Op A) : Prop :=
  ∀ (db : Database) (n : string), n ≠ t → (m db).2 !! n = db !! n.

(** The table has what [downgrade] drops. *)
Definition downgradable (t : Table) : bool :=
  has_constraint "fk_artifact_user_id_user" t
  && has_constraint "fk_artifact_workspace_id_workspace" t
  && has_column "user_id" t
  && has_column "workspace_id" t.

(** The table [downgrade] leaves. *)
Definition dropped (t : Table) : Table :=
  {| columns :=
       filter (λ c, col_name c ≠ "workspace_id")
         (filter (λ c, col_name c ≠ "user_id") (columns t));
     foreign_keys :=
       filter (λ k, fk_name k ≠ "fk_artifact_workspace_id_workspace")
         (filter (λ k, fk_name k ≠ "fk_artifact_user_id_user") (foreign_keys t));
     rows := delete "workspace_id" <$> (delete "user_id" <$> rows t) |}.

Definition duplicate_column : Exn := OperationalError "duplicate column name".

(** A database whose first workspace named "default" has no id. *)
Definition example_db_without_id : Database :=
  {[ "artifact" := example_artifact;
     "workspace" :=
       {| columns := [id_column; name_column];
          foreign_keys := [];
          rows := [ entity 1 "staging";
                    {[ "id" := NULL; "name" := Val (VText "default") ]};
                    entity 3 "default" ] |} ]}.

End MigrationStates.

Module RouteShapes.
Import Server Routing.

(** The handler code contains no [raise] of its own. *)
Fixpoint throw_free {A} (p : Prog A) : Prop :=
  match p with
  | Ret _ => True
  | Throw _ => False
  | Vis c k => ∀ x, throw_free (k x)
  end.

(** The call returned. *)
Definition answered (o : Obs) : Prop :=
  match o with
  | Observed _ (Ok _) => True
  | Observed _ (Raise _) => False
  end.

(** A run that returned saw every call answered; a run that raised [e]
    saw every call answered but the last, which raised [e]. *)
Definition raised_by_last_call {A} (o : Outcome A) (tr : list Obs) : Prop :=
  match o with
  | Ok _ => Forall answered tr
  | Raise e =>
      ∃ X (c : Call X) before,
        tr = before ++ [Observed c (Raise e)] ∧ Forall answered before
  end.

(** What a store method does, and on which resource. *)
Inductive Action := CREATE | LIST | READ | UPDATE | DELETE_.

Definition action_of (m : zen_store.method) : Action :=
  match m with
  | zen_store.create_code_repository | zen_store.create_deployment => CREATE
  | zen_store.list_code_repositories | zen_store.list_deployments => LIST
  | zen_store.get_code_repository | zen_store.get_deployment => READ
  | zen_store.update_code_repository => UPDATE
  | zen_store.delete_code_repository | zen_store.delete_deployment => DELETE_
  end.

Definition resource_of (m : zen_store.method) : ResourceType :=
  match m with
  | zen_store.create_code_repository | zen_store.list_code_repositories
  | zen_store.get_code_repository | zen_store.update_code_repository
  | zen_store.delete_code_repository => CODE_REPOSITORY
  | zen_store.create_deployment | zen_store.list_deployments
  | zen_store.get_deployment | zen_store.delete_deployment => PIPELINE_DEPLOYMENT
  end.

(** The store method [m] is the method of resource [t] for action [a]. *)
Definition is_method (t : ResourceType) (a : Action) (m : zen_store.method) : Prop :=
  resource_of m = t ∧ action_of m = a.

(** A dispatch request of a router for resource [t]: each argument is the
    store method of [t] that its parameter name says, and the resource type,
    where one is given, is [t]. *)
Definition well_wired (t : ResourceType) (d : Dispatch) : Prop :=
  match d with
  | create_entity _ resource_type create_method =>
      resource_type = t ∧ is_method t CREATE create_method
  | list_entities _ resource_type list_method _ =>
      resource_type = t ∧ is_method t LIST list_method
  | get_entity _ get_method _ => is_method t READ get_method
  | update_entity _ _ get_method update_method =>
      is_method t READ get_method ∧ is_method t UPDATE update_method
  | delete_entity _ get_method delete_method =>
      is_method t READ get_method ∧ is_method t DELETE_ delete_method
  end.

(** What tells two routes apart when a request is matched. *)
Definition route_key (r : Route) : Router * Verb * string :=
  (route_router r, route_verb r, route_path r).

End RouteShapes.

(* ===================================================================== *)
(** * examples/cortex/predict.py                                          *)
(* ===================================================================== *)

Module predict.

(** JSON values as Python holds them after [json.loads]: numbers are kept
    as their literal, objects as their items in order (keys are distinct). *)
#[warnings="-register-all"] Inductive Json :=
| JNull
| JBool (b : bool)
| JNum (literal : string)
| JStr (s : string)
| JList (items : list Json)
| JDict (items : list (string * Json)).

Definition KeyError (msg : string) : Exn :=
  {| exn_class := "KeyError"; exn_msg := msg |}.
Definition IndexError (msg : string) : Exn :=
  {| exn_class := "IndexError"; exn_msg := msg |}.
Definition TypeError (msg : string) : Exn :=
  {| exn_class := "TypeError"; exn_msg := msg |}.

Fixpoint assoc (key : string) (items : list (string * Json)) : option Json :=
  match items with
  | [] => None
  | (k, v) :: items' => if decide (k = key) then Some v else assoc key items'
  end.

(** [value[key]] for a string key. *)
Definition getitem_str (value : Json) (key : string) : Outcome Json :=
  match value with
  | JDict items =>
      match assoc key items with
      | Some v => Ok v
      | None => Raise (KeyError key)
      end
  | JList _ => Raise (TypeError "list indices must be integers or slices, not str")
  | JStr _ => Raise (TypeError "string indices must be integers, not 'str'")
  | _ => Raise (TypeError "object is not subscriptable")
  end.

(** [value[0]] *)
Definition getitem_0 (value : Json) : Outcome Json :=
  match value with
  | JList (v :: _) => Ok v
  | JList [] => Raise (IndexError "list index out of range")
  | JStr (String c _) => Ok (JStr (String c EmptyString))
  | JStr EmptyString => Raise (IndexError "string index out of range")
  | JDict _ => Raise (KeyError "0")
  | _ => Raise (TypeError "object is not subscriptable")
  end.

Definition ENDPOINT : string := "http://35.226.91.12/zenml-classifier".

Section Service.

(** [json.dumps], the text of [requests.post(url, headers=..., data=...)]'s
    response, [response.json()] on that text, and the text an f-string
    field gives for a value. *)
Variable dumps : Json → string.
Variable post : string → list (string * string) → string → Outcome string.
Variable loads : string → Outcome Json.
Variable format : Json → string.

Definition make_predict (json_request : Json) : Outcome Json :=
  let headers := [("Content-Type", "application/json")] in
  let data := dumps json_request in
  match post ENDPOINT headers data with
  | Ok response => loads response
  | Raise e => Raise e
  end.

(** The request of [main]. *)
Definition data : Json :=
  JDict [ ("times_pregnant", JNum "1"); ("pgc", JNum "148"); ("dbp", JNum "72");
          ("tst", JNum "35"); ("insulin", JNum "100"); ("bmi", JNum "33.6");
          ("pedigree", JNum "0.627"); ("age", JNum "50") ].

(** [main]: the lines printed, or the exception. *)
Definition main : Outcome (list string) :=
  match make_predict data with
  | Ok response =>
      match getitem_str response "has_diabetes" with
      | Ok value =>
          match getitem_0 value with
          | Ok first =>
              Ok ["The probability of this person to have diabetes: "
                  +:+ format first]
          | Raise e => Raise e
          end
      | Raise e => Raise e
      end
  | Raise e => Raise e
  end.

End Service.

(** A service that answers with a fixed text. *)
Definition example_loads (text : string) : Outcome Json :=
  if decide (text = "{has_diabetes: [0.73]}")
  then Ok (JDict [("has_diabetes", JList [JNum "0.73"])])
  else Raise {| exn_class := "JSONDecodeError"; exn_msg := text |}.

Definition example_dumps (v : Json) : string := "{times_pregnant: 1, ...}".

Definition example_post (url : string) (headers : list (string * string))
    (body : string) : Outcome string :=
  if decide (url = ENDPOINT) then Ok "{has_diabetes: [0.73]}"
  else Raise {| exn_class := "ConnectionError"; exn_msg := url |}.

Definition example_format (v : Json) : string :=
  match v with
  | JNum literal => literal
  | JStr s => s
  | _ => "?"
  end.

End predict.

(* ===================================================================== *)
(** * Facts about the migration                                           *)
(* ===================================================================== *)

Module MigrationFacts.
Import Migration.

Lemma bind_Ok_inv {A B} (m : Op A) (f : A → Op B) db b db' :
  (m ≫= f) db = (Ok b, db') →
  ∃ a db1, m db = (Ok a, db1) ∧ f a db1 = (Ok b, db').
Proof.
  unfold mbind, Op_bind. destruct (m db) as [[a|e] db1]; [eauto | discriminate].
Qed.

Lemma batch_alter_table_Ok_inv name os db db' :
  batch_alter_table name os db = (Ok (), db') →
  ∃ t t', db !! name = Some t ∧ apply_ops os t = Ok t' ∧ db' = <[name := t']> db.
Proof.
  unfold batch_alter_table. destruct (db !! name) as [t|]; [|discriminate].
  destruct (apply_ops os t) as [t'|e] eqn:E; [|discriminate].
  intros [= <-]. by exists t, t'.
Qed.

Lemma batch_alter_table_Ok name os db t t' :
  db !! name = Some t → apply_ops os t = Ok t' →
  batch_alter_table name os db = (Ok (), <[name := t']> db).
Proof. unfold batch_alter_table. by intros -> ->. Qed.

Lemma apply_add_columns_inv t t' :
  apply_ops upgrade_add_columns t = Ok t' →
  ("workspace_id" ∉ col_name <$> columns t) ∧
  ("user_id" ∉ col_name <$> columns t) ∧
  t' = {| columns := columns t ++ [workspace_id_column true; user_id_column];
          foreign_keys := foreign_keys t;
          rows := insert "user_id" NULL <$> (insert "workspace_id" NULL <$> rows t) |}.
Proof.
  unfold upgrade_add_columns, apply_ops, apply_op, has_column. simpl.
  case_bool_decide as H1; [discriminate|]. simpl.
  rewrite fmap_app. simpl.
  case_bool_decide as H2; [discriminate|].
  intros [= <-]. split; [done|]. split.
  - intros H. apply H2. apply elem_of_app. by left.
  - by rewrite <-app_assoc.
Qed.

Lemma apply_add_columns_Ok t :
  ("workspace_id" ∉ col_name <$> columns t) →
  ("user_id" ∉ col_name <$> columns t) →
  apply_ops upgrade_add_columns t =
  Ok {| columns := columns t ++ [workspace_id_column true; user_id_column];
        foreign_keys := foreign_keys t;
        rows := insert "user_id" NULL <$> (insert "workspace_id" NULL <$> rows t) |}.
Proof.
  intros H1 H2.
  unfold upgrade_add_columns, apply_ops, apply_op, has_column. simpl.
  rewrite bool_decide_eq_false_2 by done. simpl.
  rewrite fmap_app. simpl.
  rewrite bool_decide_eq_false_2.
  - by rewrite <-app_assoc.
  - rewrite elem_of_app. intros [?|H]; [done|].
    apply list_elem_of_singleton in H. discriminate.
Qed.

Lemma col_name_set_nullable name b c : col_name (set_nullable name b c) = col_name c.
Proof. unfold set_nullable. by case_decide. Qed.

Lemma col_names_set_nullable name b (cs : list Column) :
  col_name <$> (set_nullable name b <$> cs) = col_name <$> cs.
Proof.
  rewrite <-list_fmap_compose. apply list_fmap_ext.
  intros ? c _. apply col_name_set_nullable.
Qed.

Lemma set_nullable_absent name b (cs : list Column) :
  (name ∉ col_name <$> cs) → set_nullable name b <$> cs = cs.
Proof.
  induction cs as [|c cs IH]; [done|]. rewrite !fmap_cons. intros H.
  apply not_elem_of_cons in H as [H1 H2]. rewrite IH by done.
  unfold set_nullable. case_decide; congruence.
Qed.

Lemma apply_tighten_inv t t' :
  apply_ops upgrade_tighten t = Ok t' →
  existsb (is_null "workspace_id") (rows t) = false ∧
  ("fk_artifact_workspace_id_workspace" ∉ fk_name <$> foreign_keys t) ∧
  ("fk_artifact_user_id_user" ∉ fk_name <$> foreign_keys t) ∧
  t' = {| columns := set_nullable "workspace_id" false <$> columns t;
          foreign_keys := foreign_keys t ++
            [fk_artifact_workspace_id_workspace; fk_artifact_user_id_user];
          rows := rows t |}.
Proof.
  unfold upgrade_tighten, apply_ops, apply_op, has_column, has_constraint. simpl.
  case_bool_decide as H1; [|discriminate]. simpl.
  destruct (existsb _ _) eqn:Hnull; [discriminate|]. simpl.
  case_bool_decide as H2; [discriminate|]. simpl.
  case_bool_decide as H3; [|discriminate]. simpl.
  rewrite fmap_app. simpl.
  case_bool_decide as H4; [discriminate|]. simpl.
  case_bool_decide as H5; [|discriminate]. simpl.
  intros [= <-]. split; [done|]. split; [done|]. split.
  - intros H. apply H4, elem_of_app. by left.
  - by rewrite <-app_assoc.
Qed.

Lemma execute_Ok_inv u db db' :
  execute u db = (Ok (), db') →
  ∃ t, db !! upd_table u = Some t ∧
       (upd_column u ∈ col_name <$> columns t) ∧
       db' = <[upd_table u :=
                {| columns := columns t; foreign_keys := foreign_keys t;
                   rows := insert (upd_column u) (Val (upd_value u)) <$> rows t |}]> db.
Proof.
  unfold execute, has_column. destruct (db !! upd_table u) as [t|]; [|discriminate].
  case_bool_decide as H; [|discriminate]. simpl.
  intros [= <-]. by exists t.
Qed.

Lemma select_id_Ok_inv table_name n db o db' :
  select_id_where_name_limit_1 table_name n db = (Ok o, db') →
  db' = db ∧
  ∃ t, db !! table_name = Some t ∧
       o = match where_name n (rows t) with
           | [] => None
           | r :: _ => match r !! "id" with Some (Val v) => Some v | _ => None end
           end.
Proof.
  unfold select_id_where_name_limit_1.
  destruct (db !! table_name) as [t|]; [|discriminate].
  intros [= <- <-]. split; [done|]. by exists t.
Qed.

(** The first row with a given name: the rows before it have another name. *)
Lemma where_name_cons n rs r rest :
  where_name n rs = r :: rest →
  ∃ before after,
    rs = before ++ r :: after ∧
    r !! "name" = Some (Val (VText n)) ∧
    Forall (λ r', r' !! "name" ≠ Some (Val (VText n))) before.
Proof.
  unfold where_name. induction rs as [|r0 rs IH]; [done|].
  rewrite filter_cons. case_decide as Hr0.
  - intros [= -> <-]. exists [], rs. by repeat split.
  - intros H. destruct (IH H) as (before & after & -> & ? & ?).
    exists (r0 :: before), after. repeat split; [done|]. by constructor.
Qed.

Lemma where_name_nil n rs :
  where_name n rs = [] ↔ Forall (λ r, r !! "name" ≠ Some (Val (VText n))) rs.
Proof.
  unfold where_name. induction rs as [|r rs IH]; [done|].
  rewrite filter_cons. case_decide as Hr.
  - split; [done|]. intros H. by apply Forall_cons in H as [? _].
  - rewrite IH. split; [by constructor|]. intros H. by apply Forall_cons in H as [_ ?].
Qed.

Section Revision.
Variables ENV_ZENML_DEFAULT_WORKSPACE_NAME DEFAULT_WORKSPACE_NAME : string.
Variable environ : gmap string string.

Local Abbreviation upgrade :=
  (upgrade ENV_ZENML_DEFAULT_WORKSPACE_NAME DEFAULT_WORKSPACE_NAME environ).
Local Abbreviation default_workspace_name :=
  (default_workspace_name ENV_ZENML_DEFAULT_WORKSPACE_NAME DEFAULT_WORKSPACE_NAME environ).

(** What a completed [upgrade] has done, statement by statement. *)
Lemma upgrade_Ok_inv (db db' : Database) :
  upgrade db = (Ok (), db') →
  ∃ t0 wt r rest d,
    db !! "artifact" = Some t0 ∧
    ("workspace_id" ∉ col_name <$> columns t0) ∧
    ("user_id" ∉ col_name <$> columns t0) ∧
    ("fk_artifact_workspace_id_workspace" ∉ fk_name <$> foreign_keys t0) ∧
    ("fk_artifact_user_id_user" ∉ fk_name <$> foreign_keys t0) ∧
    db !! "workspace" = Some wt ∧
    where_name default_workspace_name (rows wt) = r :: rest ∧
    r !! "id" = Some (Val d) ∧
    batch_alter_table "artifact" upgrade_add_columns db
      = (Ok (), <["artifact" := with_new_columns t0]> db) ∧
    execute {| upd_table := "artifact"; upd_column := "workspace_id"; upd_value := d |}
        (<["artifact" := with_new_columns t0]> db)
      = (Ok (), <["artifact" := backfilled d (with_new_columns t0)]> db) ∧
    batch_alter_table "artifact" upgrade_tighten
        (<["artifact" := backfilled d (with_new_columns t0)]> db)
      = (Ok (), db') ∧
    db' = <["artifact" := tightened (backfilled d (with_new_columns t0))]> db.
Proof.
  unfold Migration.upgrade. intros H.
  apply bind_Ok_inv in H as ([] & db1 & H1 & H).
  apply bind_Ok_inv in H as (o & db1' & Hsel & H).
  apply select_id_Ok_inv in Hsel as (-> & wt & Hwt & ->).
  pose proof H1 as H1'.
  apply batch_alter_table_Ok_inv in H1' as (t0 & t1 & Ht0 & Hops1 & ->).
  apply apply_add_columns_inv in Hops1 as (Hc1 & Hc2 & ->).
  rewrite lookup_insert_ne in Hwt by done.
  destruct (where_name _ (rows wt)) as [|r rest] eqn:Hwhere; [discriminate|].
  destruct (r !! "id") as [[|d]|] eqn:Hid; try discriminate.
  apply bind_Ok_inv in H as ([] & db2 & H2 & H3).
  pose proof H2 as H2'.
  apply execute_Ok_inv in H2' as (t1 & Ht1 & _ & ->). simpl in *.
  rewrite lookup_insert_eq in Ht1. injection Ht1 as <-.
  rewrite insert_insert_eq in H2, H3.
  pose proof H3 as H3'.
  apply batch_alter_table_Ok_inv in H3' as (t2 & t' & Ht2 & Hops2 & ->).
  rewrite lookup_insert_eq in Ht2. injection Ht2 as <-.
  apply apply_tighten_inv in Hops2 as (_ & Hk1 & Hk2 & ->).
  rewrite insert_insert_eq in H3 |- *.
  exists t0, wt, r, rest, d. by repeat split.
Qed.

Lemma backfilled_rows d (rs : list Row) :
  insert "workspace_id" (Val d) <$>
    (insert "user_id" NULL <$> (insert "workspace_id" NULL <$> rs))
  = (λ r, <["workspace_id" := Val d]> (<["user_id" := NULL]> r)) <$> rs.
Proof.
  rewrite <-!list_fmap_compose. apply list_fmap_ext. intros _ r _. simpl.
  rewrite (insert_insert_ne _ "user_id" "workspace_id") by done.
  by rewrite insert_insert_eq.
Qed.

Lemma tightened_columns d t0 :
  ("workspace_id" ∉ col_name <$> columns t0) →
  columns (tightened (backfilled d (with_new_columns t0)))
  = columns t0 ++ [workspace_id_column false; user_id_column].
Proof.
  intros H. simpl. rewrite fmap_app, set_nullable_absent by done. done.
Qed.

(** C2: when [upgrade] completes, the artifact table has the column
    workspace_id, not nullable, with the foreign key
    fk_artifact_workspace_id_workspace to workspace(id) ON DELETE CASCADE, and
    the column user_id, nullable, with the foreign key
    fk_artifact_user_id_user to user(id) ON DELETE SET NULL; every row that
    was in the table holds in workspace_id the id of a workspace row named
    with the default workspace name; and the rows were given that id (the
    UPDATE) in the state in which the second block starts, where
    workspace_id is still nullable. *)
Theorem upgrade_scopes_artifacts_to_workspace (db db' : Database) :
  upgrade db = (Ok (), db') →
  ∃ t0 d db1 db2 t2 t',
    db !! "artifact" = Some t0 ∧
    (∃ wt w, db !! "workspace" = Some wt ∧ w ∈ rows wt ∧
             w !! "name" = Some (Val (VText default_workspace_name)) ∧
             w !! "id" = Some (Val d)) ∧
    batch_alter_table "artifact" upgrade_add_columns db = (Ok (), db1) ∧
    execute {| upd_table := "artifact"; upd_column := "workspace_id"; upd_value := d |} db1
      = (Ok (), db2) ∧
    batch_alter_table "artifact" upgrade_tighten db2 = (Ok (), db') ∧
    db2 !! "artifact" = Some t2 ∧
    workspace_id_column true ∈ columns t2 ∧
    rows t2 = (λ r, <["workspace_id" := Val d]> (<["user_id" := NULL]> r)) <$> rows t0 ∧
    Forall (λ r, r !! "workspace_id" = Some (Val d)) (rows t2) ∧
    db' !! "artifact" = Some t' ∧
    columns t' = columns t0 ++ [workspace_id_column false; user_id_column] ∧
    foreign_keys t' = foreign_keys t0 ++
      [fk_artifact_workspace_id_workspace; fk_artifact_user_id_user] ∧
    rows t' = rows t2.
Proof.
  intros H.
  apply upgrade_Ok_inv in H
    as (t0 & wt & w & rest & d & Ht0 & Hc1 & Hc2 & Hk1 & Hk2 & Hwt & Hw & Hid
        & H1 & H2 & H3 & ->).
  apply where_name_cons in Hw as (before & after & Hrows & Hname & _).
  exists t0, d, (<["artifact" := with_new_columns t0]> db),
    (<["artifact" := backfilled d (with_new_columns t0)]> db),
    (backfilled d (with_new_columns t0)),
    (tightened (backfilled d (with_new_columns t0))).
  split_and!; try done.
  - exists wt, w. split_and!; try done.
    rewrite Hrows. apply elem_of_app. right. by left.
  - apply lookup_insert_eq.
  - simpl. apply elem_of_app. right. by left.
  - apply backfilled_rows.
  - simpl. rewrite backfilled_rows. apply Forall_fmap, Forall_true.
    intros r. simpl. apply lookup_insert_eq.
  - apply lookup_insert_eq.
  - by apply tightened_columns.
Qed.

(** C5: the workspace name used by the backfill is the value of the
    environment variable named by ENV_ZENML_DEFAULT_WORKSPACE_NAME when it
    is set and DEFAULT_WORKSPACE_NAME otherwise, and the id written into
    every artifact row is the id of the first row of the workspace table
    that has this name. *)
Theorem upgrade_backfills_with_env_selected_workspace (db db' : Database) :
  upgrade db = (Ok (), db') →
  ∃ name wt before w after d t',
    name = match environ !! ENV_ZENML_DEFAULT_WORKSPACE_NAME with
           | Some v => v
           | None => DEFAULT_WORKSPACE_NAME
           end ∧
    default_workspace_name = name ∧
    db !! "workspace" = Some wt ∧
    rows wt = before ++ w :: after ∧
    Forall (λ r, r !! "name" ≠ Some (Val (VText name))) before ∧
    w !! "name" = Some (Val (VText name)) ∧
    w !! "id" = Some (Val d) ∧
    db' !! "artifact" = Some t' ∧
    Forall (λ r, r !! "workspace_id" = Some (Val d)) (rows t').
Proof.
  intros H.
  apply upgrade_Ok_inv in H
    as (t0 & wt & w & rest & d & Ht0 & Hc1 & Hc2 & Hk1 & Hk2 & Hwt & Hw & Hid
        & H1 & H2 & H3 & ->).
  apply where_name_cons in Hw as (before & after & Hrows & Hname & Hbefore).
  exists default_workspace_name, wt, before, w, after, d,
    (tightened (backfilled d (with_new_columns t0))).
  split_and!; try done.
  - apply lookup_insert_eq.
  - simpl. rewrite backfilled_rows. apply Forall_fmap, Forall_true.
    intros r. simpl. apply lookup_insert_eq.
Qed.

Lemma filter_fk_absent name (ks : list ForeignKey) :
  (name ∉ fk_name <$> ks) → filter (λ k, fk_name k ≠ name) ks = ks.
Proof.
  induction ks as [|k ks IH]; [done|]. rewrite fmap_cons. intros H.
  apply not_elem_of_cons in H as [H1 H2].
  rewrite filter_cons_True by done. by rewrite IH.
Qed.

Lemma filter_col_absent name (cs : list Column) :
  (name ∉ col_name <$> cs) → filter (λ c, col_name c ≠ name) cs = cs.
Proof.
  induction cs as [|c cs IH]; [done|]. rewrite fmap_cons. intros H.
  apply not_elem_of_cons in H as [H1 H2].
  rewrite filter_cons_True by done. by rewrite IH.
Qed.

Lemma drop_constraint_last k ty cs ks rs :
  (fk_name k ∉ fk_name <$> ks) →
  apply_op (drop_constraint (fk_name k) ty)
    {| columns := cs; foreign_keys := ks ++ [k]; rows := rs |}
  = Ok {| columns := cs; foreign_keys := ks; rows := rs |}.
Proof.
  intros Hk. unfold apply_op, has_constraint. simpl.
  rewrite bool_decide_eq_true_2
    by (rewrite fmap_app; apply elem_of_app; right; apply list_elem_of_singleton; done).
  simpl. rewrite filter_app, filter_fk_absent by done.
  rewrite filter_cons_False by (intros H; by apply H).
  by rewrite filter_nil, app_nil_r.
Qed.

Lemma drop_column_last c cs ks rs :
  (col_name c ∉ col_name <$> cs) →
  apply_op (drop_column (col_name c))
    {| columns := cs ++ [c]; foreign_keys := ks; rows := rs |}
  = Ok {| columns := cs; foreign_keys := ks; rows := delete (col_name c) <$> rs |}.
Proof.
  intros Hc. unfold apply_op, has_column. simpl.
  rewrite bool_decide_eq_true_2
    by (rewrite fmap_app; apply elem_of_app; right; apply list_elem_of_singleton; done).
  simpl. rewrite filter_app, filter_col_absent by done.
  rewrite filter_cons_False by (intros H; by apply H).
  by rewrite filter_nil, app_nil_r.
Qed.

(** [downgrade] on a table to which exactly the two columns and the two
    constraints were appended. *)
Lemma downgrade_ops_Ok cs ks rs :
  ("workspace_id" ∉ col_name <$> cs) → ("user_id" ∉ col_name <$> cs) →
  ("fk_artifact_workspace_id_workspace" ∉ fk_name <$> ks) →
  ("fk_artifact_user_id_user" ∉ fk_name <$> ks) →
  apply_ops downgrade_ops
    {| columns := cs ++ [workspace_id_column false; user_id_column];
       foreign_keys := ks ++
         [fk_artifact_workspace_id_workspace; fk_artifact_user_id_user];
       rows := rs |}
  = Ok {| columns := cs; foreign_keys := ks;
          rows := delete "workspace_id" <$> (delete "user_id" <$> rs) |}.
Proof.
  intros Hc1 Hc2 Hk1 Hk2. unfold downgrade_ops, apply_ops.
  rewrite (cons_middle _ ks), (cons_middle _ cs), !(assoc_L (++)).
  rewrite (drop_constraint_last fk_artifact_user_id_user).
  2:{ rewrite fmap_app. apply not_elem_of_app. split; [done|].
      simpl. by intros ?%list_elem_of_singleton. }
  rewrite (drop_constraint_last fk_artifact_workspace_id_workspace) by done.
  rewrite (drop_column_last user_id_column).
  2:{ rewrite fmap_app. apply not_elem_of_app. split; [done|].
      simpl. by intros ?%list_elem_of_singleton. }
  by rewrite (drop_column_last (workspace_id_column false)) by done.
Qed.

(** C7: after a completed [upgrade], which appended exactly the columns
    workspace_id and user_id and the constraints
    fk_artifact_workspace_id_workspace and fk_artifact_user_id_user,
    [downgrade] completes and the schema of the artifact table (columns and
    foreign keys) is the one before the upgrade; the other tables are
    untouched. *)
Theorem downgrade_after_upgrade_restores_schema (db db' : Database) :
  upgrade db = (Ok (), db') →
  ∃ t0 t' db'' t'',
    db !! "artifact" = Some t0 ∧
    db' !! "artifact" = Some t' ∧
    columns t' = columns t0 ++ [workspace_id_column false; user_id_column] ∧
    foreign_keys t' = foreign_keys t0 ++
      [fk_artifact_workspace_id_workspace; fk_artifact_user_id_user] ∧
    downgrade db' = (Ok (), db'') ∧
    db'' !! "artifact" = Some t'' ∧
    schema t'' = schema t0 ∧
    ∀ name, name ≠ "artifact" → db'' !! name = db !! name.
Proof.
  intros H.
  apply upgrade_Ok_inv in H
    as (t0 & wt & w & rest & d & Ht0 & Hc1 & Hc2 & Hk1 & Hk2 & Hwt & Hw & Hid
        & H1 & H2 & H3 & ->).
  pose proof (tightened_columns d t0 Hc1) as Hcols.
  set (t' := tightened (backfilled d (with_new_columns t0))) in *.
  assert (apply_ops downgrade_ops t'
          = Ok {| columns := columns t0; foreign_keys := foreign_keys t0;
                  rows := delete "workspace_id" <$> (delete "user_id" <$> rows t') |})
    as Hops.
  { rewrite <-(downgrade_ops_Ok _ _ (rows t') Hc1 Hc2 Hk1 Hk2).
    f_equal. rewrite <-Hcols. reflexivity. }
  set (t'' := {| columns := columns t0; foreign_keys := foreign_keys t0;
                 rows := delete "workspace_id" <$> (delete "user_id" <$> rows t') |}) in *.
  exists t0, t', (<["artifact" := t'']> (<["artifact" := t']> db)), t''.
  split_and!.
  - done.
  - apply lookup_insert_eq.
  - done.
  - done.
  - unfold downgrade.
    apply (batch_alter_table_Ok _ _ _ t'); [apply lookup_insert_eq | exact Hops].
  - apply lookup_insert_eq.
  - done.
  - intros name Hne. by rewrite !lookup_insert_ne.
Qed.

Lemma bind_Raise {A B} (m : Op A) (f : A → Op B) db e db' :
  m db = (Raise e, db') → (m ≫= f) db = (Raise e, db').
Proof. unfold mbind, Op_bind. by intros ->. Qed.

Lemma bind_Ok {A B} (m : Op A) (f : A → Op B) db a db' :
  m db = (Ok a, db') → (m ≫= f) db = f a db'.
Proof. unfold mbind, Op_bind. by intros ->. Qed.

Lemma batch_alter_table_Raise_inv name os db e db' :
  batch_alter_table name os db = (Raise e, db') → db' = db.
Proof.
  unfold batch_alter_table. destruct (db !! name) as [t|]; [|by intros [= _ <-]].
  destruct (apply_ops os t); [discriminate | by intros [= _ <-]].
Qed.

Lemma where_name_first n (before after : list Row) (w : Row) :
  Forall (λ r, r !! "name" ≠ Some (Val (VText n))) before →
  w !! "name" = Some (Val (VText n)) →
  ∃ rest, where_name n (before ++ w :: after) = w :: rest.
Proof.
  intros Hbefore Hw. unfold where_name. rewrite filter_app.
  apply where_name_nil in Hbefore. unfold where_name in Hbefore. rewrite Hbefore.
  rewrite filter_cons_True by done. by eexists.
Qed.

Lemma apply_tighten_Ok t :
  ("workspace_id" ∈ col_name <$> columns t) →
  ("user_id" ∈ col_name <$> columns t) →
  existsb (is_null "workspace_id") (rows t) = false →
  ("fk_artifact_workspace_id_workspace" ∉ fk_name <$> foreign_keys t) →
  ("fk_artifact_user_id_user" ∉ fk_name <$> foreign_keys t) →
  apply_ops upgrade_tighten t = Ok (tightened t).
Proof.
  intros Hc1 Hc2 Hnull Hk1 Hk2.
  unfold upgrade_tighten, apply_ops, apply_op, has_column, has_constraint. simpl.
  rewrite bool_decide_eq_true_2 by done. simpl. rewrite Hnull. simpl.
  rewrite bool_decide_eq_false_2 by done. simpl.
  rewrite col_names_set_nullable.
  rewrite bool_decide_eq_true_2 by done. simpl.
  rewrite fmap_app. simpl.
  rewrite bool_decide_eq_false_2.
  2:{ rewrite elem_of_app. intros [?|H]; [done|].
      by apply list_elem_of_singleton in H. }
  simpl. rewrite ?col_names_set_nullable.
  rewrite bool_decide_eq_true_2 by done. simpl.
  unfold tightened. by rewrite <-app_assoc.
Qed.

Lemma backfilled_not_null d (rs : list Row) :
  existsb (is_null "workspace_id") (insert "workspace_id" (Val d) <$> rs) = false.
Proof.
  induction rs as [|r rs IH]; [done|]. rewrite fmap_cons. simpl. rewrite IH.
  unfold is_null. by rewrite lookup_insert_eq.
Qed.

(** X1: [upgrade] completes on every database whose artifact table lacks
    the new columns and constraints and whose workspace table has a row with
    the default name and an id, and gives the artifact table with the
    columns added, the rows backfilled and the constraints tightened. *)
Lemma upgrade_succeeds (db : Database) t0 wt before w after d :
  db !! "artifact" = Some t0 →
  ("workspace_id" ∉ col_name <$> columns t0) →
  ("user_id" ∉ col_name <$> columns t0) →
  ("fk_artifact_workspace_id_workspace" ∉ fk_name <$> foreign_keys t0) →
  ("fk_artifact_user_id_user" ∉ fk_name <$> foreign_keys t0) →
  db !! "workspace" = Some wt →
  rows wt = before ++ w :: after →
  Forall (λ r, r !! "name" ≠ Some (Val (VText default_workspace_name))) before →
  w !! "name" = Some (Val (VText default_workspace_name)) →
  w !! "id" = Some (Val d) →
  upgrade db
  = (Ok (), <["artifact" := tightened (backfilled d (with_new_columns t0))]> db).
Proof.
  intros Ht0 Hc1 Hc2 Hk1 Hk2 Hwt Hrows Hbefore Hname Hid.
  unfold Migration.upgrade.
  erewrite bind_Ok
    by (eapply batch_alter_table_Ok; [done | by apply apply_add_columns_Ok]).
  destruct (where_name_first _ before after w Hbefore Hname) as [rest Hfirst].
  unfold mbind at 1, Op_bind at 1, select_id_where_name_limit_1.
  rewrite lookup_insert_ne, Hwt, Hrows, Hfirst, Hid by done.
  unfold mbind, Op_bind, execute, has_column. simpl.
  rewrite lookup_insert_eq. simpl.
  rewrite bool_decide_eq_true_2.
  2:{ rewrite fmap_app. apply elem_of_app. right. simpl. by left. }
  simpl. rewrite insert_insert_eq.
  erewrite batch_alter_table_Ok; [by rewrite insert_insert_eq| apply lookup_insert_eq|].
  apply (apply_tighten_Ok (backfilled d (with_new_columns t0))).
  - simpl. rewrite fmap_app. apply elem_of_app. right. simpl. by left.
  - simpl. rewrite fmap_app. apply elem_of_app. right. simpl. right. by left.
  - apply backfilled_not_null.
  - done.
  - done.
Qed.

(** C3 (amended): when the workspace table has no row with the default
    workspace name, [upgrade] raises, and no row is backfilled,
    workspace_id is not made non-nullable and no foreign key is added.
    The database is unchanged exactly when the first block fails, which is
    when the artifact table is missing or already has a column workspace_id
    or user_id. In the other case the exception is "Default workspace not
    found" and the database is changed: the artifact table has the two new
    columns workspace_id and user_id, both nullable and NULL in every row,
    and is otherwise as before. *)
Theorem upgrade_aborts_without_default_workspace (db : Database) (wt : Table) :
  db !! "workspace" = Some wt →
  Forall (λ r, r !! "name" ≠ Some (Val (VText default_workspace_name))) (rows wt) →
  ∃ e db',
    upgrade db = (Raise e, db') ∧
    (((∀ t0, db !! "artifact" = Some t0 →
             ("workspace_id" ∈ col_name <$> columns t0) ∨
             ("user_id" ∈ col_name <$> columns t0)) ∧
      batch_alter_table "artifact" upgrade_add_columns db = (Raise e, db) ∧
      db' = db)
     ∨
     (∃ t0 t1,
        db !! "artifact" = Some t0 ∧
        ("workspace_id" ∉ col_name <$> columns t0) ∧
        ("user_id" ∉ col_name <$> columns t0) ∧
        batch_alter_table "artifact" upgrade_add_columns db = (Ok (), db') ∧
        e = default_workspace_not_found ∧
        db' = <["artifact" := t1]> db ∧
        db' ≠ db ∧
        columns t1 = columns t0 ++ [workspace_id_column true; user_id_column] ∧
        foreign_keys t1 = foreign_keys t0 ∧
        rows t1 = (λ r, <["user_id" := NULL]> (<["workspace_id" := NULL]> r))
                    <$> rows t0 ∧
        Forall (λ r, r !! "workspace_id" = Some NULL) (rows t1))).
Proof.
  intros Hwt Hnone. unfold Migration.upgrade.
  destruct (batch_alter_table "artifact" upgrade_add_columns db)
    as [[[]|e] db1] eqn:H1.
  - pose proof H1 as H1'.
    apply batch_alter_table_Ok_inv in H1' as (t0 & t1 & Ht0 & Hops & ->).
    apply apply_add_columns_inv in Hops as (Hc1 & Hc2 & ->).
    exists default_workspace_not_found, (<["artifact" := with_new_columns t0]> db).
    split.
    + erewrite bind_Ok by exact H1.
      unfold mbind, Op_bind, select_id_where_name_limit_1.
      rewrite lookup_insert_ne, Hwt by done.
      apply where_name_nil in Hnone. by rewrite Hnone.
    + right. exists t0, (with_new_columns t0). split_and!; try done.
      * intros Heq.
        apply (f_equal (λ d : Database, length ∘ columns <$> d !! "artifact")) in Heq.
        rewrite lookup_insert_eq, Ht0 in Heq. simpl in Heq.
        rewrite length_app in Heq. simpl in Heq. injection Heq as Heq. lia.
      * simpl. by rewrite <-list_fmap_compose.
      * simpl. rewrite <-list_fmap_compose. apply Forall_fmap, Forall_true.
        intros r. simpl. rewrite lookup_insert_ne by done. apply lookup_insert_eq.
  - pose proof (batch_alter_table_Raise_inv _ _ _ _ _ H1) as ->.
    exists e, db. split; [by apply bind_Raise|]. left. split_and!; try done.
    intros t0 Ht0.
    destruct (decide ("workspace_id" ∈ col_name <$> columns t0)) as [?|Hc1];
      [by left|].
    destruct (decide ("user_id" ∈ col_name <$> columns t0)) as [?|Hc2];
      [by right|].
    exfalso. unfold batch_alter_table in H1.
    rewrite Ht0, (apply_add_columns_Ok t0 Hc1 Hc2) in H1. discriminate H1.
Qed.
End Revision.

(** C3 (as stated): on a database without default workspace the aborted
    [upgrade] does not leave the database unchanged: the two columns added
    by the first block stay. *)
Lemma aborted_upgrade_keeps_new_columns :
  example_db_without_default !! "workspace" = Some example_other_workspace ∧
  Forall (λ r : Row, r !! "name" ≠ Some (Val (VText "default")))
    (rows example_other_workspace) ∧
  upgrade "ZENML_DEFAULT_WORKSPACE_NAME" "default" ∅ example_db_without_default
  = (Raise default_workspace_not_found,
     <["artifact" := with_new_columns example_artifact]> example_db_without_default) ∧
  <["artifact" := with_new_columns example_artifact]> example_db_without_default
  ≠ example_db_without_default.
Proof.
  split_and!.
  - by vm_compute.
  - repeat constructor. by vm_compute.
  - by vm_compute.
  - intros H. apply (f_equal (λ db : Database, columns <$> db !! "artifact")) in H.
    vm_compute in H. discriminate H.
Qed.

Lemma upgrade_aborts_without_default_workspace_witness :
  ∃ e db',
    upgrade "ZENML_DEFAULT_WORKSPACE_NAME" "default" ∅ example_db_without_default
    = (Raise e, db').
Proof.
  destruct (upgrade_aborts_without_default_workspace
              "ZENML_DEFAULT_WORKSPACE_NAME" "default" ∅
              example_db_without_default example_other_workspace)
    as (e & db' & H & _).
  - by vm_compute.
  - repeat constructor. by vm_compute.
  - by exists e, db'.
Defined.

Lemma example_upgrade :
  upgrade "ZENML_DEFAULT_WORKSPACE_NAME" "default" ∅ example_db
  = (Ok (), example_upgraded).
Proof. by vm_compute. Qed.

Lemma upgrade_scopes_artifacts_to_workspace_witness :
  ∃ d t',
    example_upgraded !! "artifact" = Some t' ∧
    Forall (λ r : Row, r !! "workspace_id" = Some (Val d)) (rows t').
Proof.
  destruct (upgrade_scopes_artifacts_to_workspace
              "ZENML_DEFAULT_WORKSPACE_NAME" "default" ∅ example_db example_upgraded)
    as (t0 & d & db1 & db2 & t2 & t' & _ & _ & _ & _ & _ & _ & _ & _ & Hall & Ht' & _ & _ & Hrows).
  - by vm_compute.
  - exists d, t'. split; [done|]. by rewrite Hrows.
Defined.

Lemma upgrade_backfills_with_env_selected_workspace_witness :
  ∃ name d t',
    default_workspace_name "ZENML_DEFAULT_WORKSPACE_NAME" "default" ∅ = name ∧
    example_upgraded !! "artifact" = Some t' ∧
    Forall (λ r : Row, r !! "workspace_id" = Some (Val d)) (rows t').
Proof.
  destruct (upgrade_backfills_with_env_selected_workspace
              "ZENML_DEFAULT_WORKSPACE_NAME" "default" ∅ example_db example_upgraded)
    as (name & wt & before & w & after & d & t' & _ & Hname & _ & _ & _ & _ & _ & Ht' & Hall).
  - by vm_compute.
  - by exists name, d, t'.
Defined.

Lemma downgrade_after_upgrade_restores_schema_witness :
  ∃ db'' t'',
    downgrade example_upgraded = (Ok (), db'') ∧
    db'' !! "artifact" = Some t'' ∧
    schema t'' = schema example_artifact.
Proof.
  destruct (downgrade_after_upgrade_restores_schema
              "ZENML_DEFAULT_WORKSPACE_NAME" "default" ∅ example_db example_upgraded)
    as (t0 & t' & db'' & t'' & Ht0 & _ & _ & _ & Hdown & Ht'' & Hschema & _).
  - by vm_compute.
  - exists db'', t''. split_and!; [done..|].
    rewrite Hschema. vm_compute in Ht0. by injection Ht0 as <-.
Defined.
End MigrationFacts.

(* ===================================================================== *)
(** * Facts about the route layer                                         *)
(* ===================================================================== *)

Module RouteFacts.
Import Server Routing.
Import code_repositories_endpoints pipeline_deployments_endpoints.

(** Unfold the monad operations and run as far as the collaborators'
    answers are known. *)
Ltac run_step :=
  unfold trace, mbind, Prog_bind, mret, Prog_ret, call; simpl.

Section Collaborators.
Context {W : Type} (h : Responder W).

Lemma scoped_run_intro {A} (w : NameOrId) (dispatch : UUID → Call A) s :
  let p := (_ ← call authorize;
            workspace ← call (get_workspace w);
            call (dispatch (ws_id workspace))) in
  scoped_run w dispatch (run h p s).1.1 (trace h p s).
Proof.
  run_step. unfold scoped_run.
  destruct (h _ authorize s) as [[a|e] s1]; simpl; [|by left; exists e].
  destruct (h _ (get_workspace w) s1) as [[ws|e] s2]; simpl;
    [|by right; left; exists a, e].
  right; right. exists a, ws.
  by destruct (h _ (dispatch (ws_id ws)) s2) as [[r|e] s3].
Qed.

(** C1: with a workspace_name_or_id that is true in an [if] (a non-empty
    string or a UUID), create_code_repository and create_deployment call
    get_workspace with it and hand the dispatch the request model whose
    workspace field is the id of the workspace found and whose other
    attributes are those received; list_code_repositories and
    list_deployments hand the dispatch the filter model after
    set_scope_workspace with that id, which makes that id the scope of the
    filter. The lookup comes before the dispatch, and without a workspace
    found there is no dispatch. *)
Theorem url_workspace_scopes_request_and_filter (w : NameOrId) (s : W) :
  truthy w = true →
  (∀ code_repository,
     let p := create_code_repository code_repository (Some w) in
     scoped_run w
       (λ i, verify_permissions_and_create_entity
               {| workspace := i;
                  request_attrs := request_attrs code_repository |}
               CODE_REPOSITORY zen_store.create_code_repository)
       (run h p s).1.1 (trace h p s)) ∧
  (∀ deployment,
     let p := create_deployment deployment (Some w) in
     scoped_run w
       (λ i, verify_permissions_and_create_entity
               {| workspace := i; request_attrs := request_attrs deployment |}
               PIPELINE_DEPLOYMENT zen_store.create_deployment)
       (run h p s).1.1 (trace h p s)) ∧
  (∀ filter_model hydrate,
     let p := list_code_repositories filter_model (Some w) hydrate in
     scoped_run w
       (λ i, verify_permissions_and_list_entities
               (set_scope_workspace i filter_model) CODE_REPOSITORY
               zen_store.list_code_repositories (default false hydrate))
       (run h p s).1.1 (trace h p s)) ∧
  (∀ deployment_filter_model hydrate,
     let p := list_deployments deployment_filter_model (Some w) hydrate in
     scoped_run w
       (λ i, verify_permissions_and_list_entities
               (set_scope_workspace i deployment_filter_model) PIPELINE_DEPLOYMENT
               zen_store.list_deployments (default false hydrate))
       (run h p s).1.1 (trace h p s)) ∧
  (∀ i filter_model,
     scope_workspace (set_scope_workspace i filter_model) = Some i ∧
     filter_attrs (set_scope_workspace i filter_model) = filter_attrs filter_model).
Proof.
  intros Hw. split_and!; intros; try subst p.
  - unfold create_code_repository. rewrite Hw.
    apply (scoped_run_intro w (λ i, verify_permissions_and_create_entity _ _ _)).
  - unfold create_deployment. rewrite Hw.
    apply (scoped_run_intro w (λ i, verify_permissions_and_create_entity _ _ _)).
  - unfold list_code_repositories. rewrite Hw.
    apply (scoped_run_intro w (λ i, verify_permissions_and_list_entities _ _ _ _)).
  - unfold list_deployments. rewrite Hw.
    apply (scoped_run_intro w (λ i, verify_permissions_and_list_entities _ _ _ _)).
  - done.
Qed.

Lemma trace_Vis {X A} (c : Call X) (k : X → Prog A) s :
  trace h (Vis c k) s =
  match h _ c s with
  | (Ok x, s1) => Observed c (Ok x) :: trace h (k x) s1
  | (Raise e, _) => [Observed c (Raise e)]
  end.
Proof.
  unfold trace. simpl. destruct (h X c s) as [[x|e] s1]; [|done].
  by destruct (run h (k x) s1) as [[? ?] ?].
Qed.

Lemma trace_Ret {A} (a : A) s : trace h (Ret a) s = [].
Proof. done. Qed.

(** The dispatch requests of a run without workspace lookup: one, and
    only when [authorize] succeeded. *)
Lemma unscoped_trace {A} (c : Call A) (d : Dispatch) s :
  dispatch_of c = Some d →
  let tr := trace h (_ ← call authorize; call c) s in
  lookups tr = [] ∧
  dispatched tr = match (h _ authorize s).1 with
                  | Ok _ => [d]
                  | Raise _ => []
                  end.
Proof.
  intros Hd. unfold mbind, Prog_bind, call. cbn [bind].
  rewrite trace_Vis.
  destruct (h _ authorize s) as [[a|e] s1]; cbn [fst]; [|done].
  assert (∀ r, lookups [Observed authorize (Ok a); Observed c r] = []
               ∧ dispatched [Observed authorize (Ok a); Observed c r] = [d])
    as Hobs.
  { intros r. unfold lookups, dispatched. simpl. rewrite Hd.
    split; [|done]. by destruct c. }
  rewrite trace_Vis. destruct (h _ c s1) as [[r|e] s2]; apply Hobs.
Qed.

(** C9: when workspace_name_or_id is None, the four handlers that accept
    it make no workspace lookup and hand the dispatch the request or filter
    model they received, unchanged. *)
Theorem absent_workspace_leaves_model_unchanged (s : W) :
  (∀ code_repository,
     let tr := trace h (create_code_repository code_repository None) s in
     lookups tr = [] ∧
     dispatched tr = match (h _ authorize s).1 with
                     | Ok _ => [create_entity code_repository CODE_REPOSITORY
                                  zen_store.create_code_repository]
                     | Raise _ => []
                     end) ∧
  (∀ filter_model hydrate,
     let tr := trace h (list_code_repositories filter_model None hydrate) s in
     lookups tr = [] ∧
     dispatched tr = match (h _ authorize s).1 with
                     | Ok _ => [list_entities filter_model CODE_REPOSITORY
                                  zen_store.list_code_repositories
                                  (default false hydrate)]
                     | Raise _ => []
                     end) ∧
  (∀ deployment,
     let tr := trace h (create_deployment deployment None) s in
     lookups tr = [] ∧
     dispatched tr = match (h _ authorize s).1 with
                     | Ok _ => [create_entity deployment PIPELINE_DEPLOYMENT
                                  zen_store.create_deployment]
                     | Raise _ => []
                     end) ∧
  (∀ deployment_filter_model hydrate,
     let tr := trace h (list_deployments deployment_filter_model None hydrate) s in
     lookups tr = [] ∧
     dispatched tr = match (h _ authorize s).1 with
                     | Ok _ => [list_entities deployment_filter_model
                                  PIPELINE_DEPLOYMENT zen_store.list_deployments
                                  (default false hydrate)]
                     | Raise _ => []
                     end).
Proof.
  split_and!; intros.
  - by apply (unscoped_trace (verify_permissions_and_create_entity _ _ _)).
  - by apply (unscoped_trace (verify_permissions_and_list_entities _ _ _ _)).
  - by apply (unscoped_trace (verify_permissions_and_create_entity _ _ _)).
  - by apply (unscoped_trace (verify_permissions_and_list_entities _ _ _ _)).
Qed.

Lemma hydrate_flags_cons_other {X} (c : Call X) r tr :
  dispatch_of c = None → hydrate_flags (Observed c r :: tr) = hydrate_flags tr.
Proof. unfold hydrate_flags, dispatched. simpl. by intros ->. Qed.

Lemma hydrate_flags_get i m b (r : Outcome ResponseModel) :
  hydrate_flags [Observed (verify_permissions_and_get_entity i m b) r] = [b].
Proof. done. Qed.

Lemma hydrate_flags_list f t m b (r : Outcome Page) :
  hydrate_flags [Observed (verify_permissions_and_list_entities f t m b) r] = [b].
Proof. done. Qed.

Lemma get_flags i m b s :
  Forall (eq b)
    (hydrate_flags
       (trace h (_ ← call authorize;
                 call (verify_permissions_and_get_entity i m b)) s)).
Proof.
  unfold mbind, Prog_bind, call. cbn [bind]. rewrite trace_Vis.
  destruct (h _ authorize s) as [[a|e] s1]; [|by constructor].
  rewrite hydrate_flags_cons_other by done. cbn beta. rewrite trace_Vis.
  destruct (h _ _ s1) as [[r|e] s2]; rewrite ?trace_Ret, hydrate_flags_get;
    by repeat constructor.
Qed.

Lemma list_flags (f : FilterModel) (w : option NameOrId) t m b s
    (scope : UUID → FilterModel → FilterModel) :
  Forall (eq b)
    (hydrate_flags
       (trace h (_ ← call authorize;
                 f' ← match w with
                      | Some w =>
                          if truthy w then
                            workspace ← call (get_workspace w);
                            mret (scope (ws_id workspace) f)
                          else mret f
                      | None => mret f
                      end;
                 call (verify_permissions_and_list_entities f' t m b)) s)).
Proof.
  assert (∀ f' s', Forall (eq b)
            (hydrate_flags
               (trace h (call (verify_permissions_and_list_entities f' t m b)) s')))
    as Hlast.
  { intros f' s'. unfold call. rewrite trace_Vis.
    destruct (h _ _ s') as [[r|e] s2]; rewrite ?trace_Ret, hydrate_flags_list;
      by repeat constructor. }
  unfold mbind, Prog_bind, mret, Prog_ret.
  change (call authorize) with (Vis authorize Ret).
  cbn [bind]. rewrite trace_Vis.
  destruct (h _ authorize s) as [[a|e] s1]; [|by constructor].
  rewrite hydrate_flags_cons_other by done.
  destruct w as [w|]; [destruct (truthy w)|]; cbn [bind]; try apply Hlast.
  change (call (get_workspace w)) with (Vis (get_workspace w) Ret). cbn [bind].
  rewrite trace_Vis. destruct (h _ (get_workspace w) s1) as [[ws|e] s2];
    [|by constructor].
  rewrite hydrate_flags_cons_other by done. apply Hlast.
Qed.

(** C10: a request without hydrate is served by get_code_repository and
    get_deployment as with hydrate = True, and by list_code_repositories and
    list_deployments as with hydrate = False; the flag handed to the dispatch
    is the one given, or this default. *)
Theorem hydrate_defaults_get_true_list_false :
  (∀ id, get_code_repository id None = get_code_repository id (Some true)) ∧
  (∀ id, get_deployment id None = get_deployment id (Some true)) ∧
  (∀ f w, list_code_repositories f w None = list_code_repositories f w (Some false)) ∧
  (∀ f w, list_deployments f w None = list_deployments f w (Some false)) ∧
  (∀ id hydrate s,
     Forall (eq (default true hydrate))
       (hydrate_flags (trace h (get_code_repository id hydrate) s))) ∧
  (∀ id hydrate s,
     Forall (eq (default true hydrate))
       (hydrate_flags (trace h (get_deployment id hydrate) s))) ∧
  (∀ f w hydrate s,
     Forall (eq (default false hydrate))
       (hydrate_flags (trace h (list_code_repositories f w hydrate) s))) ∧
  (∀ f w hydrate s,
     Forall (eq (default false hydrate))
       (hydrate_flags (trace h (list_deployments f w hydrate) s))).
Proof.
  split_and!; try done; intros.
  - apply get_flags.
  - apply get_flags.
  - apply (list_flags f w _ _ _ s set_scope_workspace).
  - apply (list_flags f w _ _ _ s set_scope_workspace).
Qed.

(** C8 (amended): create_code_repository raises no exception of its own
    (an exception that leaves it was raised by the last call it made). With
    a workspace_name_or_id that is supplied and not empty, whenever the
    workspace is found it hands the dispatch the request model with the
    workspace field overwritten by the id found, whatever the field held,
    the other attributes as received, and returns what the dispatch
    returns. With the empty string it makes no lookup and hands the
    dispatch the request model as received. *)
Theorem create_code_repository_overwrites_without_check
    (code_repository : RequestModel) (w : NameOrId) (s : W) :
  let r := run h (create_code_repository code_repository (Some w)) s in
  (∀ e, r.1.1 = Raise e →
        ∃ X (c : Call X) before, r.1.2 = before ++ [Observed c (Raise e)]) ∧
  (w ≠ Name EmptyString →
   ∀ a s1 found s2,
     h _ authorize s = (Ok a, s1) →
     h _ (get_workspace w) s1 = (Ok found, s2) →
     let request_model :=
       {| workspace := ws_id found;
          request_attrs := request_attrs code_repository |} in
     let dispatch := verify_permissions_and_create_entity request_model
                       CODE_REPOSITORY zen_store.create_code_repository in
     lookups r.1.2 = [w] ∧
     dispatched r.1.2 = [create_entity request_model CODE_REPOSITORY
                           zen_store.create_code_repository] ∧
     r.1.1 = (h _ dispatch s2).1) ∧
  (w = Name EmptyString →
   lookups r.1.2 = [] ∧
   dispatched r.1.2
   = match (h _ authorize s).1 with
     | Ok _ => [create_entity code_repository CODE_REPOSITORY
                  zen_store.create_code_repository]
     | Raise _ => []
     end).
Proof.
  assert (w ≠ Name EmptyString → truthy w = true) as Htrue.
  { destruct w as [[|c n]|u]; by intros. }
  unfold create_code_repository. split_and!.
  - intros e0. destruct (truthy w); run_step.
    + destruct (h _ authorize s) as [[a|e] s1]; simpl.
      2:{ intros [= <-]. by exists _, authorize, []. }
      destruct (h _ (get_workspace w) s1) as [[ws|e] s2]; simpl.
      2:{ intros [= <-].
          by exists _, (get_workspace w), [Observed authorize (Ok a)]. }
      destruct (h _ _ s2) as [[r|e] s3] eqn:E; simpl; [done|].
      intros [= <-]. eexists _, _, [_; _]. simpl. reflexivity.
    + destruct (h _ authorize s) as [[a|e] s1]; simpl.
      2:{ intros [= <-]. by exists _, authorize, []. }
      destruct (h _ _ s1) as [[r|e] s2] eqn:E; simpl; [done|].
      intros [= <-]. eexists _, _, [_]. simpl. reflexivity.
  - intros Hw. rewrite (Htrue Hw). run_step.
    intros a s1 ws s2 -> ->. simpl. unfold lookups, dispatched.
    by destruct (h _ _ s2) as [[r|e] s3].
  - intros ->. run_step.
    destruct (h _ authorize s) as [[a|e] s1]; simpl; [|done].
    unfold lookups, dispatched. by destruct (h _ _ s1) as [[r|e] s2].
Qed.

(** C6: the route GET /{deployment_id}/logs of deployment_logs is among the
    routes exactly when workload_manager_enabled is true; the handler makes
    the permission-checked retrieval of the deployment (hydrate = True) and
    then returns get_logs of the workload manager called with the id of the
    deployment retrieved. *)
Theorem deployment_logs_registered_iff_workload_manager_enabled
    (API VERSION_1 PIPELINE_DEPLOYMENTS : string)
    (server_config : ServerConfiguration) :
  let routes := routes API VERSION_1 PIPELINE_DEPLOYMENTS server_config in
  let logs_route := logs_route API VERSION_1 PIPELINE_DEPLOYMENTS in
  ((∃ r, r ∈ routes ∧ route_endpoint r = "deployment_logs")
     ↔ workload_manager_enabled server_config = true) ∧
  ((∃ r, r ∈ routes ∧ route_path r = "/{deployment_id}/logs")
     ↔ workload_manager_enabled server_config = true) ∧
  (logs_route ∈ routes ↔ workload_manager_enabled server_config = true) ∧
  (∀ r, r ∈ routes →
        route_endpoint r = "deployment_logs" ∨ route_path r = "/{deployment_id}/logs" →
        r = logs_route) ∧
  (∀ deployment_id s,
     logs_run deployment_id
       (run h (deployment_logs deployment_id) s).1.1
       (trace h (deployment_logs deployment_id) s)).
Proof.
  intros routes0 logs0. subst routes0 logs0.
  unfold routes. destruct (workload_manager_enabled server_config).
  - split_and!.
    + split; [done|]. intros _. exists (logs_route API VERSION_1 PIPELINE_DEPLOYMENTS).
      split; [|done]. apply elem_of_app. right. by left.
    + split; [done|]. intros _. exists (logs_route API VERSION_1 PIPELINE_DEPLOYMENTS).
      split; [|done]. apply elem_of_app. right. by left.
    + split; [done|]. intros _. apply elem_of_app. right. by left.
    + intros r Hr Hlogs. apply elem_of_app in Hr as [Hr|Hr].
      * repeat (apply elem_of_cons in Hr as [->|Hr]);
          try (by destruct Hlogs as [?|?]; simplify_eq/=).
        by apply elem_of_nil in Hr.
      * by apply list_elem_of_singleton in Hr.
    + intros deployment_id s. unfold deployment_logs, logs_run. run_step.
      destruct (h _ authorize s) as [[a|e] s1]; simpl; [|by left; exists e].
      destruct (h _ _ s1) as [[d|e] s2]; simpl; [|by right; left; exists a, e].
      right; right. exists a, d. by destruct (h _ _ s2) as [[r|e] s3].
  - simpl.
    assert (∀ r, r ∈ routes API VERSION_1 PIPELINE_DEPLOYMENTS
                       {| workload_manager_enabled := false |} →
                 route_endpoint r = "deployment_logs"
                 ∨ route_path r = "/{deployment_id}/logs" → False) as Hnone.
    { intros r Hr Hlogs. unfold routes in Hr. simpl in Hr.
      repeat (apply elem_of_cons in Hr as [->|Hr]);
        try (by destruct Hlogs as [?|?]; simplify_eq/=).
      by apply elem_of_nil in Hr. }
    unfold routes in Hnone. simpl in Hnone.
    split_and!.
    + split; [|done]. intros (r & Hr & Hend). exfalso. eapply Hnone; eauto.
    + split; [|done]. intros (r & Hr & Hpath). exfalso. eapply Hnone; eauto.
    + split; [|done]. intros Hr. exfalso. eapply Hnone; [exact Hr|]. by left.
    + intros r Hr Hlogs. exfalso. eapply Hnone; eauto.
    + intros deployment_id s. unfold deployment_logs, logs_run. run_step.
      destruct (h _ authorize s) as [[a|e] s1]; simpl; [|by left; exists e].
      destruct (h _ _ s1) as [[d|e] s2]; simpl; [|by right; left; exists a, e].
      right; right. exists a, d. by destruct (h _ _ s2) as [[r|e] s3].
Qed.

(** ** Gating of the store calls *)

Lemma gate_closed (tr : list Obs) :
  Forall (λ o, is_store_call o = false) tr → store_gated tr.
Proof.
  intros Hall before o after -> Ho.
  apply Forall_app in Hall as [_ Hall]. apply Forall_cons in Hall as [Hno _].
  congruence.
Qed.

Lemma gate_open (pre rest : list Obs) (i j : nat) :
  Forall (λ o, is_store_call o = false) pre →
  i < j →
  is_authorized <$> pre !! i = Some true →
  is_permitted <$> pre !! j = Some true →
  store_gated (pre ++ rest).
Proof.
  intros Hpre Hij Hi Hj before o after Heq Ho.
  exists i, j. split; [done|].
  assert (∃ l, before = pre ++ l) as [l ->].
  { apply app_eq_app in Heq as [l [[-> Hl]|[-> Hl]]]; [|by exists l].
    destruct l as [|o' l]; [exists []; by rewrite !app_nil_r|].
    injection Hl as <- _.
    apply Forall_app in Hpre as [_ Hpre]. apply Forall_cons in Hpre as [Hno _].
    congruence. }
  destruct (pre !! i) as [x|] eqn:Ei; [|done].
  destruct (pre !! j) as [y|] eqn:Ej; [|done].
  rewrite (lookup_app_l_Some _ _ _ _ Ei), (lookup_app_l_Some _ _ _ _ Ej). done.
Qed.

Section Dispatch.
Variable delegate : Delegate.

Local Abbreviation code := (expand (endpoint_utils delegate)).

Lemma phase_dispatch {X} (c : Call X) (r : Outcome X) :
  is_Some (dispatch_of c) → phase (Observed c r) = 2.
Proof. intros [d Hd]. by destruct c. Qed.

(** Handlers that call the dispatch right after [authorize]. *)
Lemma gated_direct {A B} (c : Call A) (f : A → B) s :
  is_Some (dispatch_of c) →
  let p := (_ ← call authorize; x ← call c; mret (f x)) in
  in_route_order (trace h p s) ∧ store_gated (trace h (code p) s).
Proof.
  intros [d Hd]. unfold mbind, Prog_bind, mret, Prog_ret, call.
  cbn [bind expand]. split.
  - unfold in_route_order. right. rewrite trace_Vis.
    destruct (h _ authorize s) as [[a|e] s1]. 2:{ by exists [2]. }
    rewrite trace_Vis.
    destruct (h _ c s1) as [[x|e] s2]; cbn beta; rewrite ?trace_Ret;
      rewrite !fmap_cons, (phase_dispatch c) by (by exists d); by exists [].
  - unfold endpoint_utils at 1. cbn [dispatch_of bind call]. rewrite trace_Vis.
    destruct (h _ authorize s) as [[a|e] s1];
      [|by apply gate_closed; repeat constructor].
    cbn [bind expand]. unfold endpoint_utils at 1. rewrite Hd.
    unfold mbind, Prog_bind, call. cbn [bind]. rewrite trace_Vis.
    destruct (h _ (verify_permission c) s1) as [[u|e] s2];
      [|by apply gate_closed; repeat constructor].
    apply (gate_open [_; _] _ 0 1); [by repeat constructor|lia|done|done].
Qed.

(** Handlers that resolve the workspace first. *)
Lemma gated_scoped {A M} (m : M) (w : option NameOrId) (scope : UUID → M → M)
    (c : M → Call A) s :
  (∀ m', is_Some (dispatch_of (c m'))) →
  let p := (_ ← call authorize;
            m' ← match w with
                 | Some w =>
                     if truthy w then
                       workspace ← call (get_workspace w);
                       mret (scope (ws_id workspace) m)
                     else mret m
                 | None => mret m
                 end;
            call (c m')) in
  in_route_order (trace h p s) ∧ store_gated (trace h (code p) s).
Proof.
  intros Hc.
  assert (∀ m', (_ ← call authorize; call (c m'))
                = (_ ← call authorize; x ← call (c m'); mret ((λ y, y) x)))
    as Hdirect by done.
  destruct w as [w|]; [destruct (truthy w)|];
    try (unfold mret, Prog_ret; cbn [mbind Prog_bind bind];
         rewrite ?Hdirect; by apply gated_direct).
  unfold mbind, Prog_bind, mret, Prog_ret, call. cbn [bind expand]. split.
  - unfold in_route_order. left. rewrite trace_Vis.
    destruct (h _ authorize s) as [[a|e] s1]; [|by eexists _].
    rewrite trace_Vis.
    destruct (h _ (get_workspace w) s1) as [[ws|e] s2]; [|by eexists _].
    cbn [bind]. rewrite trace_Vis. destruct (Hc (scope (ws_id ws) m)) as [d Hd].
    destruct (h _ _ s2) as [[x|e] s3]; cbn beta; rewrite ?trace_Ret;
      rewrite !fmap_cons, (phase_dispatch (c _)) by (by exists d); by exists [].
  - unfold endpoint_utils at 1. cbn [dispatch_of bind call]. rewrite trace_Vis.
    destruct (h _ authorize s) as [[a|e] s1];
      [|by apply gate_closed; repeat constructor].
    cbn [bind expand]. unfold endpoint_utils at 1. cbn [dispatch_of bind call].
    rewrite trace_Vis.
    destruct (h _ (get_workspace w) s1) as [[ws|e] s2];
      [|by apply gate_closed; repeat constructor].
    cbn [bind expand]. unfold endpoint_utils at 1.
    destruct (Hc (scope (ws_id ws) m)) as [d ->].
    unfold mbind, Prog_bind, call. cbn [bind]. rewrite trace_Vis.
    destruct (h _ (verify_permission _) s2) as [[u|e] s3];
      [|by apply gate_closed; repeat constructor].
    apply (gate_open [_; _; _] _ 0 2); [by repeat constructor|lia|done|done].
Qed.

(** C4: for the nine CRUD endpoints of the two router modules, the calls
    are made in the order authorize, workspace lookup (if any), dispatch;
    and with the dispatch functions as modelled, every call of a store
    create, get, list, update or delete method comes after a successful
    authorize and a successful permission verification, so none is made
    when either fails. *)
Theorem store_called_only_after_authorize_and_permission (s : W) :
  let ordered {A} (p : Prog A) :=
    in_route_order (trace h p s) ∧ store_gated (trace h (code p) s) in
  (∀ code_repository w, ordered (create_code_repository code_repository w)) ∧
  (∀ filter_model w hydrate,
     ordered (list_code_repositories filter_model w hydrate)) ∧
  (∀ id hydrate, ordered (get_code_repository id hydrate)) ∧
  (∀ id update, ordered (update_code_repository id update)) ∧
  (∀ id, ordered (delete_code_repository id)) ∧
  (∀ deployment w, ordered (create_deployment deployment w)) ∧
  (∀ filter_model w hydrate, ordered (list_deployments filter_model w hydrate)) ∧
  (∀ id hydrate, ordered (get_deployment id hydrate)) ∧
  (∀ id, ordered (delete_deployment id)).
Proof.
  intros ordered. subst ordered. cbn beta. split_and!; intros.
  - apply (gated_scoped _ _ with_workspace
             (λ m, verify_permissions_and_create_entity m _ _)); by eexists.
  - apply (gated_scoped _ _ set_scope_workspace
             (λ m, verify_permissions_and_list_entities m _ _ _)); by eexists.
  - apply (gated_direct (verify_permissions_and_get_entity _ _ _) (λ x, x)); by eexists.
  - apply (gated_direct (verify_permissions_and_update_entity _ _ _ _) (λ x, x));
      by eexists.
  - apply (gated_direct (verify_permissions_and_delete_entity _ _ _)
             (λ _, ())); by eexists.
  - apply (gated_scoped _ _ with_workspace
             (λ m, verify_permissions_and_create_entity m _ _)); by eexists.
  - apply (gated_scoped _ _ set_scope_workspace
             (λ m, verify_permissions_and_list_entities m _ _ _)); by eexists.
  - apply (gated_direct (verify_permissions_and_get_entity _ _ _) (λ x, x)); by eexists.
  - apply (gated_direct (verify_permissions_and_delete_entity _ _ _)
             (λ _, ())); by eexists.
Qed.
End Dispatch.
End Collaborators.

(** C8 (as stated): a supplied but empty workspace_name_or_id is not
    resolved and the workspace field of the request is not overwritten. *)
Lemma empty_workspace_name_is_not_resolved :
  let tr := trace example_responder
              (create_code_repository example_request (Some (Name EmptyString)))
              example_workspaces in
  lookups tr = [] ∧
  dispatched tr = [create_entity example_request CODE_REPOSITORY
                     zen_store.create_code_repository] ∧
  workspace example_request = 5%N.
Proof. by vm_compute. Qed.
Lemma url_workspace_scopes_request_and_filter_witness :
  truthy (Name "default") = true ∧
  let p := create_code_repository example_request (Some (Name "default")) in
  scoped_run (Name "default")
    (λ i, verify_permissions_and_create_entity
            {| workspace := i; request_attrs := [("name", "repo")] |}
            CODE_REPOSITORY zen_store.create_code_repository)
    (run example_responder p example_workspaces).1.1
    (trace example_responder p example_workspaces).
Proof.
  split; [reflexivity|].
  apply (url_workspace_scopes_request_and_filter example_responder
           (Name "default") example_workspaces).
  reflexivity.
Defined.

Lemma create_code_repository_overwrites_without_check_witness :
  Id 8%N ≠ Name EmptyString ∧
  dispatched
    (trace example_responder
       (create_code_repository example_request (Some (Id 8%N))) example_workspaces)
  = [create_entity {| workspace := 8%N; request_attrs := [("name", "repo")] |}
       CODE_REPOSITORY zen_store.create_code_repository].
Proof.
  split; [discriminate|].
  destruct (create_code_repository_overwrites_without_check example_responder
              example_request (Id 8%N) example_workspaces) as (_ & H & _).
  destruct (H ltac:(discriminate) {| auth_user := 1%N |} example_workspaces
              {| ws_id := 8%N; ws_name := "staging" |} example_workspaces)
    as (_ & Hd & _); [reflexivity..|].
  exact Hd.
Defined.

(** The run of the example request, which names workspace 5, against the
    example store, where "default" is workspace 7. *)
Example example_scoped_run :
  trace example_responder
    (create_code_repository example_request (Some (Name "default")))
    example_workspaces
  = [ Observed authorize (Ok {| auth_user := 1%N |});
      Observed (get_workspace (Name "default"))
        (Ok {| ws_id := 7%N; ws_name := "default" |});
      Observed (verify_permissions_and_create_entity
                  {| workspace := 7%N; request_attrs := [("name", "repo")] |}
                  CODE_REPOSITORY zen_store.create_code_repository)
        (Ok {| resp_id := 100%N; resp_attrs := [("name", "repo")] |}) ].
Proof. reflexivity. Qed.

(** With the modelled dispatch and a delegate that calls the store, the
    store is reached after [authorize] and [verify_permission]. *)
Example example_gated_run :
  trace example_responder
    (expand (endpoint_utils store_delegate)
       (delete_deployment 42%N)) example_workspaces
  = [ Observed authorize (Ok {| auth_user := 1%N |});
      Observed (verify_permission
                  (verify_permissions_and_delete_entity 42%N
                     zen_store.get_deployment zen_store.delete_deployment))
        (Ok ());
      Observed (store_get zen_store.get_deployment 42%N true)
        (Ok {| resp_id := 42%N; resp_attrs := [] |});
      Observed (store_delete zen_store.delete_deployment 42%N) (Ok ()) ].
Proof. reflexivity. Qed.

End RouteFacts.

(* ===================================================================== *)
(** * Further facts about the migration                                   *)
(* ===================================================================== *)

Module MigrationExtras.
Import Migration MigrationStates MigrationFacts.

Lemma touches_only_bind {A B} t (m : Op A) (f : A → Op B) :
  touches_only t m → (∀ a, touches_only t (f a)) → touches_only t (m ≫= f).
Proof.
  intros Hm Hf db n Hn. unfold mbind, Op_bind.
  specialize (Hm db n Hn). destruct (m db) as [[a|e] db1]; simpl in *; [|done].
  by rewrite Hf.
Qed.

Lemma batch_alter_table_touches_only t os : touches_only t (batch_alter_table t os).
Proof.
  intros db n Hn. unfold batch_alter_table.
  destruct (db !! t) as [tb|]; [|done].
  destruct (apply_ops os tb); [|done]. simpl. by rewrite lookup_insert_ne.
Qed.

Lemma execute_touches_only u : touches_only (upd_table u) (execute u).
Proof.
  intros db n Hn. unfold execute.
  destruct (db !! upd_table u) as [tb|]; [|done].
  destruct (negb _); [done|]. simpl. by rewrite lookup_insert_ne.
Qed.

Lemma select_touches_only t table_name n :
  touches_only t (select_id_where_name_limit_1 table_name n).
Proof.
  intros db k _. unfold select_id_where_name_limit_1.
  by destruct (db !! table_name).
Qed.

Lemma fk_names_filter (n m : string) (ks : list ForeignKey) :
  n ≠ m →
  n ∈ fk_name <$> filter (λ k, fk_name k ≠ m) ks ↔ n ∈ fk_name <$> ks.
Proof.
  intros Hnm. rewrite !list_elem_of_fmap. split.
  - intros (k & -> & Hk%list_elem_of_filter). exists k. tauto.
  - intros (k & -> & Hk). exists k. split; [done|].
    apply list_elem_of_filter. done.
Qed.

Lemma col_names_filter (n m : string) (cs : list Column) :
  n ≠ m →
  n ∈ col_name <$> filter (λ c, col_name c ≠ m) cs ↔ n ∈ col_name <$> cs.
Proof.
  intros Hnm. rewrite !list_elem_of_fmap. split.
  - intros (c & -> & Hc%list_elem_of_filter). exists c. tauto.
  - intros (c & -> & Hc). exists c. split; [done|].
    apply list_elem_of_filter. done.
Qed.

(** The block of [downgrade] on any table. *)
Lemma downgrade_ops_cases (t : Table) :
  (downgradable t = true ∧ apply_ops downgrade_ops t = Ok (dropped t)) ∨
  (downgradable t = false ∧ ∃ e, apply_ops downgrade_ops t = Raise e).
Proof.
  unfold downgradable, downgrade_ops, apply_ops, apply_op, has_constraint, has_column.
  destruct (bool_decide ("fk_artifact_user_id_user" ∈ fk_name <$> foreign_keys t))
    eqn:E1; simpl; [|right; eauto].
  assert ("fk_artifact_workspace_id_workspace" ≠ "fk_artifact_user_id_user")
    as Hk by done.
  rewrite (bool_decide_ext _ _ (fk_names_filter _ _ (foreign_keys t) Hk)).
  destruct (bool_decide ("fk_artifact_workspace_id_workspace"
                         ∈ fk_name <$> foreign_keys t))
    eqn:E2; simpl; [|right; eauto].
  destruct (bool_decide ("user_id" ∈ col_name <$> columns t))
    eqn:E3; simpl; [|right; eauto].
  assert ("workspace_id" ≠ "user_id") as Hc by done.
  rewrite (bool_decide_ext _ _ (col_names_filter _ _ (columns t) Hc)).
  destruct (bool_decide ("workspace_id" ∈ col_name <$> columns t))
    eqn:E4; simpl; [|right; eauto].
  by left.
Qed.

Section Revision.
Variables ENV_ZENML_DEFAULT_WORKSPACE_NAME DEFAULT_WORKSPACE_NAME : string.
Variable environ : gmap string string.

Local Abbreviation upgrade :=
  (upgrade ENV_ZENML_DEFAULT_WORKSPACE_NAME DEFAULT_WORKSPACE_NAME environ).
Local Abbreviation default_workspace_name :=
  (default_workspace_name ENV_ZENML_DEFAULT_WORKSPACE_NAME DEFAULT_WORKSPACE_NAME environ).

(** X2: whether they complete or raise, [upgrade] and [downgrade] leave
    every table other than artifact as it was. *)
Theorem revision_touches_only_artifact (db : Database) (n : string) :
  n ≠ "artifact" →
  (upgrade db).2 !! n = db !! n ∧ (downgrade db).2 !! n = db !! n.
Proof.
  intros Hn. split.
  - revert db n Hn. change (touches_only "artifact" upgrade).
    unfold Migration.upgrade.
    apply touches_only_bind; [apply batch_alter_table_touches_only|]. intros _.
    apply touches_only_bind; [apply select_touches_only|]. intros [d|].
    + apply touches_only_bind.
      * apply (execute_touches_only
                 {| upd_table := "artifact"; upd_column := "workspace_id";
                    upd_value := d |}).
      * intros _. apply batch_alter_table_touches_only.
    + by intros db n Hn.
  - by apply batch_alter_table_touches_only.
Qed.

(** X3: a completed [upgrade] keeps the columns and the foreign keys the
    artifact table had, in their order, in front of the new ones, keeps the
    rows in number and order, leaves every cell of a row other than
    workspace_id and user_id as it was, and sets user_id to NULL in every
    row. *)
Theorem upgrade_preserves_existing_data (db db' : Database) :
  upgrade db = (Ok (), db') →
  ∃ t0 t',
    db !! "artifact" = Some t0 ∧ db' !! "artifact" = Some t' ∧
    columns t0 `prefix_of` columns t' ∧
    foreign_keys t0 `prefix_of` foreign_keys t' ∧
    length (rows t') = length (rows t0) ∧
    ∀ i r0, rows t0 !! i = Some r0 →
      ∃ r', rows t' !! i = Some r' ∧
            r' !! "user_id" = Some NULL ∧
            ∀ c, c ≠ "workspace_id" → c ≠ "user_id" → r' !! c = r0 !! c.
Proof.
  intros H.
  apply upgrade_Ok_inv in H
    as (t0 & wt & w & rest & d & Ht0 & Hc1 & Hc2 & Hk1 & Hk2 & Hwt & Hw & Hid
        & H1 & H2 & H3 & ->).
  exists t0, (tightened (backfilled d (with_new_columns t0))).
  split_and!; [done|apply lookup_insert_eq|..].
  - rewrite tightened_columns by done. by eexists.
  - simpl. by eexists.
  - simpl. by rewrite !length_fmap.
  - intros i r0 Hi. simpl. rewrite backfilled_rows, list_lookup_fmap, Hi. simpl.
    eexists. split; [done|]. split.
    + rewrite lookup_insert_ne by done. apply lookup_insert_eq.
    + intros c Hc1' Hc2'. by rewrite !lookup_insert_ne.
Qed.

Lemma restore_row (d : Value) (r : Row) :
  r !! "workspace_id" = None → r !! "user_id" = None →
  delete "workspace_id"
    (delete "user_id" (<["workspace_id" := Val d]> (<["user_id" := NULL]> r))) = r.
Proof.
  intros Hw Hu.
  rewrite delete_insert_ne, delete_insert_eq by done.
  rewrite delete_insert_eq, (delete_id r "user_id") by done.
  by apply delete_id.
Qed.

(** X4: when no artifact row had a workspace_id or user_id cell before,
    [downgrade] after a completed [upgrade] completes and gives back the
    database the upgrade started from, rows included. *)
Theorem downgrade_after_upgrade_is_identity (db db' : Database) :
  (∀ t0, db !! "artifact" = Some t0 →
         Forall (λ r : Row, r !! "workspace_id" = None ∧ r !! "user_id" = None)
           (rows t0)) →
  upgrade db = (Ok (), db') →
  downgrade db' = (Ok (), db).
Proof.
  intros Hwf H.
  apply upgrade_Ok_inv in H
    as (t0 & wt & w & rest & d & Ht0 & Hc1 & Hc2 & Hk1 & Hk2 & Hwt & Hw & Hid
        & H1 & H2 & H3 & ->).
  specialize (Hwf t0 Ht0).
  pose proof (tightened_columns d t0 Hc1) as Hcols.
  set (t' := tightened (backfilled d (with_new_columns t0))) in *.
  assert (apply_ops downgrade_ops t' = Ok t0) as Hops.
  { transitivity (apply_ops downgrade_ops
                    {| columns := columns t0 ++ [workspace_id_column false; user_id_column];
                       foreign_keys := foreign_keys t0 ++
                         [fk_artifact_workspace_id_workspace; fk_artifact_user_id_user];
                       rows := rows t' |}).
    { f_equal. rewrite <-Hcols. reflexivity. }
    rewrite (downgrade_ops_Ok _ _ (rows t') Hc1 Hc2 Hk1 Hk2).
    f_equal. destruct t0 as [cs ks rs]. simpl in *. f_equal.
    rewrite backfilled_rows, <-!list_fmap_compose.
    clear -Hwf. induction Hwf as [|r rs [Hw Hu] _ IH]; [done|].
    rewrite fmap_cons, IH. f_equal. simpl. by apply restore_row. }
  unfold downgrade.
  rewrite (batch_alter_table_Ok _ _ _ t' t0) by (apply lookup_insert_eq || done).
  by rewrite insert_insert_eq, insert_id.
Qed.

(** [upgrade] on a table that has one of the two columns. *)
Lemma upgrade_duplicate_column (db : Database) (t : Table) :
  db !! "artifact" = Some t →
  ("workspace_id" ∈ col_name <$> columns t) ∨ ("user_id" ∈ col_name <$> columns t) →
  upgrade db = (Raise duplicate_column, db).
Proof.
  intros Ht Hcol. unfold Migration.upgrade.
  apply bind_Raise. unfold batch_alter_table. rewrite Ht.
  unfold upgrade_add_columns, apply_ops, apply_op, has_column. simpl.
  case_bool_decide as H1; [done|]. simpl.
  rewrite bool_decide_eq_true_2; [done|].
  destruct Hcol as [?|Hu]; [done|]. rewrite fmap_app. apply elem_of_app. by left.
Qed.

(** After [upgrade], whatever its outcome, the database is the one before
    or its artifact table has the column workspace_id. *)
Lemma upgrade_cases (db db' : Database) (o : Outcome unit) :
  upgrade db = (o, db') →
  db' = db ∨
  ∃ t, db' !! "artifact" = Some t ∧ ("workspace_id" ∈ col_name <$> columns t).
Proof.
  unfold Migration.upgrade, mbind, Op_bind.
  destruct (batch_alter_table "artifact" upgrade_add_columns db)
    as [[[]|e] db1] eqn:H1.
  2:{ apply batch_alter_table_Raise_inv in H1 as ->. intros [= _ <-]. by left. }
  apply batch_alter_table_Ok_inv in H1 as (t0 & t1 & Ht0 & Hops & ->).
  apply apply_add_columns_inv in Hops as (_ & _ & ->).
  assert ("workspace_id" ∈ col_name <$> columns (with_new_columns t0)) as Hin.
  { simpl. rewrite fmap_app. apply elem_of_app. right. by left. }
  unfold select_id_where_name_limit_1.
  destruct (_ !! "workspace") as [wt|].
  2:{ intros [= _ <-]. right. eexists. by rewrite lookup_insert_eq. }
  destruct (match where_name _ _ with [] => None | _ => _ end) as [d|].
  2:{ intros [= _ <-]. right. eexists. by rewrite lookup_insert_eq. }
  unfold execute, has_column. simpl. rewrite lookup_insert_eq. simpl.
  rewrite bool_decide_eq_true_2 by done. simpl. rewrite insert_insert_eq.
  unfold batch_alter_table. rewrite lookup_insert_eq.
  destruct (apply_ops upgrade_tighten _) as [t'|e] eqn:Hops.
  - apply apply_tighten_inv in Hops as (_ & _ & _ & ->).
    intros [= _ <-]. right. eexists. rewrite lookup_insert_eq. split; [done|].
    simpl. by rewrite col_names_set_nullable.
  - intros [= _ <-]. right. eexists. by rewrite lookup_insert_eq.
Qed.

(** X5: once [upgrade] has changed the database (it completed, or it raised
    after its first block), running it again raises "duplicate column name"
    and changes nothing. *)
Theorem upgrade_cannot_be_repeated (db db' : Database) (o : Outcome unit) :
  upgrade db = (o, db') →
  db' ≠ db →
  upgrade db' = (Raise duplicate_column, db').
Proof.
  intros H Hne. apply upgrade_cases in H as [?|(t & Ht & Hin)]; [done|].
  apply (upgrade_duplicate_column db' t Ht). by left.
Qed.

(** X6: [downgrade] completes exactly when the artifact table has the two
    constraints and the two columns it drops, and then leaves the table
    without them; in every other case it raises and the database is
    unchanged. *)
Theorem downgrade_completes_iff_downgradable (db : Database) :
  (∃ t, db !! "artifact" = Some t ∧ downgradable t = true ∧
        downgrade db = (Ok (), <["artifact" := dropped t]> db)) ∨
  ((∀ t, db !! "artifact" = Some t → downgradable t = false) ∧
   ∃ e, downgrade db = (Raise e, db)).
Proof.
  unfold downgrade, batch_alter_table.
  destruct (db !! "artifact") as [t|]; [|right; split; [done|eauto]].
  destruct (downgrade_ops_cases t) as [[Hd ->]|[Hd [e ->]]].
  - left. by exists t.
  - right. split; [by intros ? [= <-]|eauto].
Qed.

(** X7: a completed [downgrade] keeps exactly the columns not named
    workspace_id or user_id and the foreign keys not named
    fk_artifact_workspace_id_workspace or fk_artifact_user_id_user, keeps the
    rows in number and order, removes the workspace_id and user_id cells of
    every row and leaves its other cells as they were. *)
Theorem downgrade_discards_scoping_only (db db' : Database) :
  downgrade db = (Ok (), db') →
  ∃ t t',
    db !! "artifact" = Some t ∧ db' !! "artifact" = Some t' ∧
    (∀ c, c ∈ columns t' ↔
          c ∈ columns t ∧ col_name c ≠ "workspace_id" ∧ col_name c ≠ "user_id") ∧
    (∀ k, k ∈ foreign_keys t' ↔
          k ∈ foreign_keys t ∧
          fk_name k ≠ "fk_artifact_workspace_id_workspace" ∧
          fk_name k ≠ "fk_artifact_user_id_user") ∧
    length (rows t') = length (rows t) ∧
    ∀ i r, rows t !! i = Some r →
      ∃ r', rows t' !! i = Some r' ∧
            r' !! "workspace_id" = None ∧ r' !! "user_id" = None ∧
            ∀ c, c ≠ "workspace_id" → c ≠ "user_id" → r' !! c = r !! c.
Proof.
  intros H. unfold downgrade in H.
  apply batch_alter_table_Ok_inv in H as (t & t' & Ht & Hops & ->).
  destruct (downgrade_ops_cases t) as [[_ Hd]|[_ [e Hd]]]; [|congruence].
  rewrite Hd in Hops. injection Hops as <-.
  exists t, (dropped t). split_and!; [done|apply lookup_insert_eq|..].
  - intros c. simpl. rewrite !list_elem_of_filter. tauto.
  - intros k. simpl. rewrite !list_elem_of_filter. tauto.
  - simpl. by rewrite !length_fmap.
  - intros i r Hi. simpl. rewrite <-list_fmap_compose, list_lookup_fmap, Hi. simpl.
    eexists. split; [done|]. split_and!.
    + apply lookup_delete_eq.
    + rewrite lookup_delete_ne by done. apply lookup_delete_eq.
    + intros c Hc1 Hc2. by rewrite !lookup_delete_ne.
Qed.

(** X8: when the first workspace row with the default name has no id (NULL),
    [upgrade] raises, with "Default workspace not found" unless its first
    block already failed, also when a later row with that name has an id. *)
Theorem upgrade_default_workspace_without_id (db : Database) (wt : Table)
    (before after : list Row) (w : Row) :
  db !! "workspace" = Some wt →
  rows wt = before ++ w :: after →
  Forall (λ r, r !! "name" ≠ Some (Val (VText default_workspace_name))) before →
  w !! "name" = Some (Val (VText default_workspace_name)) →
  is_null "id" w = true →
  ∃ e db',
    upgrade db = (Raise e, db') ∧
    (batch_alter_table "artifact" upgrade_add_columns db = (Raise e, db)
     ∨ e = default_workspace_not_found).
Proof.
  intros Hwt Hrows Hbefore Hname Hnull. unfold Migration.upgrade.
  destruct (batch_alter_table "artifact" upgrade_add_columns db)
    as [[[]|e] db1] eqn:H1.
  - pose proof H1 as H1'.
    apply batch_alter_table_Ok_inv in H1' as (t0 & t1 & Ht0 & Hops & ->).
    exists default_workspace_not_found, (<["artifact" := t1]> db). split; [|by right].
    erewrite bind_Ok by exact H1.
    destruct (where_name_first _ before after w Hbefore Hname) as [rest Hfirst].
    unfold mbind, Op_bind, select_id_where_name_limit_1.
    rewrite lookup_insert_ne, Hwt, Hrows, Hfirst by done.
    unfold is_null in Hnull. by destruct (w !! "id") as [[|v]|].
  - pose proof (batch_alter_table_Raise_inv _ _ _ _ _ H1) as ->.
    exists e, db. split; [by apply bind_Raise | by left].
Qed.
End Revision.

Local Abbreviation ENV := "ZENML_DEFAULT_WORKSPACE_NAME".

Local Ltac absent := apply (bool_decide_unpack _); by vm_compute.

Lemma upgrade_succeeds_witness :
  upgrade ENV "default" ∅ example_db = (Ok (), example_upgraded).
Proof.
  rewrite (upgrade_succeeds ENV "default" ∅ example_db example_artifact
             example_workspace [entity 1 "staging"] (entity 2 "default")
             [entity 3 "default"] (VGuid 2));
    [by vm_compute| reflexivity | absent | absent | absent | absent
    | reflexivity | reflexivity | repeat constructor; by vm_compute
    | reflexivity | reflexivity].
Defined.

Lemma revision_touches_only_artifact_witness :
  (upgrade ENV "default" ∅ example_db).2 !! "workspace" = Some example_workspace.
Proof.
  destruct (revision_touches_only_artifact ENV "default" ∅ example_db "workspace")
    as [H _]; [done|].
  rewrite H. reflexivity.
Defined.

Lemma upgrade_preserves_existing_data_witness :
  ∃ t', example_upgraded !! "artifact" = Some t' ∧
        length (rows t') = length (rows example_artifact).
Proof.
  destruct (upgrade_preserves_existing_data ENV "default" ∅ example_db
              example_upgraded)
    as (t0 & t' & Ht0 & Ht' & _ & _ & Hlen & _); [by vm_compute|].
  exists t'. split; [done|]. rewrite Hlen.
  vm_compute in Ht0. by injection Ht0 as <-.
Defined.

Lemma downgrade_after_upgrade_is_identity_witness :
  downgrade example_upgraded = (Ok (), example_db).
Proof.
  apply (downgrade_after_upgrade_is_identity ENV "default" ∅).
  - intros t0 Ht0. vm_compute in Ht0. injection Ht0 as <-.
    repeat constructor; by vm_compute.
  - by vm_compute.
Defined.

Lemma upgrade_cannot_be_repeated_witness :
  upgrade ENV "default" ∅ example_upgraded = (Raise duplicate_column, example_upgraded).
Proof.
  apply (upgrade_cannot_be_repeated ENV "default" ∅ example_db example_upgraded (Ok ())).
  - by vm_compute.
  - intros H. apply (f_equal (λ db : Database, columns <$> db !! "artifact")) in H.
    vm_compute in H. discriminate H.
Defined.

Lemma downgrade_discards_scoping_only_witness :
  ∃ t', example_db !! "artifact" = Some t' ∧
        length (rows t') = length (rows example_artifact).
Proof.
  destruct (downgrade_discards_scoping_only example_upgraded example_db)
    as (t & t' & Ht & Ht' & _ & _ & Hlen & _); [by vm_compute|].
  exists t'. split; [done|]. rewrite Hlen.
  vm_compute in Ht. by injection Ht as <-.
Defined.

Lemma upgrade_default_workspace_without_id_witness :
  ∃ e db', upgrade ENV "default" ∅ example_db_without_id = (Raise e, db').
Proof.
  destruct (upgrade_default_workspace_without_id ENV "default" ∅
              example_db_without_id
              {| columns := [id_column; name_column];
                 foreign_keys := [];
                 rows := [ entity 1 "staging";
                           {[ "id" := NULL; "name" := Val (VText "default") ]};
                           entity 3 "default" ] |}
              [entity 1 "staging"] [entity 3 "default"]
              {[ "id" := NULL; "name" := Val (VText "default") ]})
    as (e & db' & H & _);
    [by vm_compute | reflexivity | repeat constructor; by vm_compute
    | by vm_compute | by vm_compute |].
  by exists e, db'.
Defined.
End MigrationExtras.

(* ===================================================================== *)
(** * Further facts about the route layer                                 *)
(* ===================================================================== *)

Module RouteExtras.
Import Server Routing RouteShapes RouteFacts.
Import code_repositories_endpoints pipeline_deployments_endpoints.

(** Case analysis on the answers of the collaborators, call by call. *)
Ltac answers h :=
  repeat match goal with
         | |- context [h ?X ?c ?s] => destruct (h X c s) as [[?|?] ?]; simpl
         end.

Ltac by_cases h w :=
  try (destruct w as [w|]; [destruct (truthy w) eqn:?|]);
  run_step; answers h; unfold lookups, dispatched; simpl.

Section Collaborators.
Context {W : Type} (h : Responder W).

Lemma throw_free_raised_by_last_call {A} (p : Prog A) (s : W) :
  throw_free p → raised_by_last_call (run h p s).1.1 (trace h p s).
Proof.
  unfold trace. revert s. induction p as [a|e|X c k IH]; intros s Hp; simpl.
  - constructor.
  - done.
  - destruct (h X c s) as [[x|e] s1]; simpl.
    + specialize (IH x s1 (Hp x)).
      destruct (run h (k x) s1) as [[o tr] s2]. simpl in *.
      destruct o as [a|e].
      * by constructor.
      * destruct IH as (Y & c' & before & -> & Hbefore).
        exists Y, c', (Observed c (Ok x) :: before). split; [done|].
        by constructor.
    + by exists X, c, [].
Qed.

Lemma throw_free_scoped {A M} (m : M) (w : option NameOrId)
    (scope : UUID → M → M) (c : M → Call A) :
  throw_free (_ ← call authorize;
              m' ← match w with
                   | Some w =>
                       if truthy w then
                         workspace ← call (get_workspace w);
                         mret (scope (ws_id workspace) m)
                       else mret m
                   | None => mret m
                   end;
              call (c m')).
Proof. destruct w as [w|]; [destruct (truthy w)|]; by simpl. Qed.

(** X9: none of the ten handlers raises an exception of its own: when a
    run raises [e], the last call it made raised [e] and every call before
    was answered; when a run returns, every call was answered. *)
Theorem handlers_raise_only_what_a_call_raised (s : W) :
  let ok {A} (p : Prog A) := raised_by_last_call (run h p s).1.1 (trace h p s) in
  (∀ code_repository w, ok (create_code_repository code_repository w)) ∧
  (∀ filter_model w hydrate, ok (list_code_repositories filter_model w hydrate)) ∧
  (∀ code_repository_id hydrate, ok (get_code_repository code_repository_id hydrate)) ∧
  (∀ code_repository_id update, ok (update_code_repository code_repository_id update)) ∧
  (∀ code_repository_id, ok (delete_code_repository code_repository_id)) ∧
  (∀ deployment w, ok (create_deployment deployment w)) ∧
  (∀ filter_model w hydrate, ok (list_deployments filter_model w hydrate)) ∧
  (∀ deployment_id hydrate, ok (get_deployment deployment_id hydrate)) ∧
  (∀ deployment_id, ok (delete_deployment deployment_id)) ∧
  (∀ deployment_id, ok (deployment_logs deployment_id)).
Proof.
  intros ok. subst ok. cbn beta.
  split_and!; intros; apply throw_free_raised_by_last_call;
    try apply (throw_free_scoped _ _ with_workspace
                 (λ m, verify_permissions_and_create_entity m _ _));
    try apply (throw_free_scoped _ _ set_scope_workspace
                 (λ m, verify_permissions_and_list_entities m _ _ _));
    by simpl.
Qed.

(** X10: in every run of a handler of code_repositories_endpoints, each
    dispatch request names CODE_REPOSITORY and, for each method parameter
    (create, list, get, update, delete), the code repository method of the
    store for that action; likewise with PIPELINE_DEPLOYMENT and the
    deployment methods for pipeline_deployments_endpoints. *)
Theorem dispatch_requests_are_well_wired (s : W) :
  let wired {A} (t : ResourceType) (p : Prog A) :=
    Forall (well_wired t) (dispatched (trace h p s)) in
  (∀ code_repository w,
     wired CODE_REPOSITORY (create_code_repository code_repository w)) ∧
  (∀ filter_model w hydrate,
     wired CODE_REPOSITORY (list_code_repositories filter_model w hydrate)) ∧
  (∀ code_repository_id hydrate,
     wired CODE_REPOSITORY (get_code_repository code_repository_id hydrate)) ∧
  (∀ code_repository_id update,
     wired CODE_REPOSITORY (update_code_repository code_repository_id update)) ∧
  (∀ code_repository_id,
     wired CODE_REPOSITORY (delete_code_repository code_repository_id)) ∧
  (∀ deployment w, wired PIPELINE_DEPLOYMENT (create_deployment deployment w)) ∧
  (∀ filter_model w hydrate,
     wired PIPELINE_DEPLOYMENT (list_deployments filter_model w hydrate)) ∧
  (∀ deployment_id hydrate,
     wired PIPELINE_DEPLOYMENT (get_deployment deployment_id hydrate)) ∧
  (∀ deployment_id, wired PIPELINE_DEPLOYMENT (delete_deployment deployment_id)) ∧
  (∀ deployment_id, wired PIPELINE_DEPLOYMENT (deployment_logs deployment_id)).
Proof.
  intros wired. subst wired. cbn beta.
  split_and!; intros;
    [ unfold create_code_repository | unfold list_code_repositories
    | unfold get_code_repository | unfold update_code_repository
    | unfold delete_code_repository | unfold create_deployment
    | unfold list_deployments | unfold get_deployment
    | unfold delete_deployment | unfold deployment_logs ];
    by_cases h w; by repeat constructor.
Qed.

(** X11: a handler that accepts workspace_name_or_id makes at most one
    workspace lookup, for the identifier it was given, which is then not
    the empty string; given the empty string it is the same handler as
    given None. *)
Theorem workspace_is_looked_up_at_most_once (s : W) (w : option NameOrId) :
  let once {A} (p : Prog A) :=
    lookups (trace h p s) = [] ∨
    ∃ w', w = Some w' ∧ w' ≠ Name EmptyString ∧ lookups (trace h p s) = [w'] in
  (∀ code_repository, once (create_code_repository code_repository w)) ∧
  (∀ filter_model hydrate, once (list_code_repositories filter_model w hydrate)) ∧
  (∀ deployment, once (create_deployment deployment w)) ∧
  (∀ filter_model hydrate, once (list_deployments filter_model w hydrate)) ∧
  (∀ code_repository,
     create_code_repository code_repository (Some (Name EmptyString))
     = create_code_repository code_repository None) ∧
  (∀ filter_model hydrate,
     list_code_repositories filter_model (Some (Name EmptyString)) hydrate
     = list_code_repositories filter_model None hydrate) ∧
  (∀ deployment,
     create_deployment deployment (Some (Name EmptyString))
     = create_deployment deployment None) ∧
  (∀ filter_model hydrate,
     list_deployments filter_model (Some (Name EmptyString)) hydrate
     = list_deployments filter_model None hydrate).
Proof.
  intros once. subst once. cbn beta.
  assert (∀ w', truthy w' = true → w' ≠ Name EmptyString) as Hne.
  { by intros [[|]|] ? [=]. }
  split_and!; try done; intros;
    [ unfold create_code_repository | unfold list_code_repositories
    | unfold create_deployment | unfold list_deployments ];
    by_cases h w; (by left) || (right; eexists; split_and!; [done|by apply Hne|done]).
Qed.

(** X12: whatever workspace_name_or_id is, the request model that
    create_code_repository or create_deployment hands to the dispatch has
    the attributes of the request received, except possibly workspace. *)
Theorem create_keeps_other_attributes (s : W) (w : option NameOrId) :
  (∀ code_repository,
     Forall (λ d, ∃ request_model,
                d = create_entity request_model CODE_REPOSITORY
                      zen_store.create_code_repository ∧
                request_attrs request_model = request_attrs code_repository)
       (dispatched (trace h (create_code_repository code_repository w) s))) ∧
  (∀ deployment,
     Forall (λ d, ∃ request_model,
                d = create_entity request_model PIPELINE_DEPLOYMENT
                      zen_store.create_deployment ∧
                request_attrs request_model = request_attrs deployment)
       (dispatched (trace h (create_deployment deployment w) s))).
Proof.
  split; intros; [unfold create_code_repository | unfold create_deployment];
    by_cases h w; repeat constructor; by eexists.
Qed.

(** X13: the handlers addressed by an id (get, update and delete of a
    code repository; get, delete and logs of a deployment) never look up a
    workspace, and make exactly one dispatch request, for the id given with
    the get method of the store, when authorize succeeds and none when it
    fails. *)
Theorem id_addressed_handlers_dispatch_once (s : W) :
  let shape {A} (p : Prog A) (d : Dispatch) :=
    lookups (trace h p s) = [] ∧
    dispatched (trace h p s)
    = match (h _ authorize s).1 with Ok _ => [d] | Raise _ => [] end in
  (∀ code_repository_id hydrate,
     shape (get_code_repository code_repository_id hydrate)
       (get_entity code_repository_id zen_store.get_code_repository
          (default true hydrate))) ∧
  (∀ code_repository_id update,
     shape (update_code_repository code_repository_id update)
       (update_entity code_repository_id update zen_store.get_code_repository
          zen_store.update_code_repository)) ∧
  (∀ code_repository_id,
     shape (delete_code_repository code_repository_id)
       (delete_entity code_repository_id zen_store.get_code_repository
          zen_store.delete_code_repository)) ∧
  (∀ deployment_id hydrate,
     shape (get_deployment deployment_id hydrate)
       (get_entity deployment_id zen_store.get_deployment (default true hydrate))) ∧
  (∀ deployment_id,
     shape (delete_deployment deployment_id)
       (delete_entity deployment_id zen_store.get_deployment
          zen_store.delete_deployment)) ∧
  (∀ deployment_id,
     shape (deployment_logs deployment_id)
       (get_entity deployment_id zen_store.get_deployment true)).
Proof.
  intros shape. subst shape. cbn beta.
  split_and!; intros;
    [ unfold get_code_repository | unfold update_code_repository
    | unfold delete_code_repository | unfold get_deployment
    | unfold delete_deployment | unfold deployment_logs ];
    run_step; answers h; unfold lookups, dispatched; by simpl.
Qed.
End Collaborators.

Section Routes.
Variables API VERSION_1 CODE_REPOSITORIES PIPELINE_DEPLOYMENTS : string.

Local Abbreviation code_repository_routes :=
  (code_repositories_endpoints.routes API VERSION_1 CODE_REPOSITORIES).
Local Abbreviation deployment_routes :=
  (pipeline_deployments_endpoints.routes API VERSION_1 PIPELINE_DEPLOYMENTS).

Ltac distinct_keys :=
  repeat (apply NoDup_cons; split;
          [ rewrite ?not_elem_of_cons; split_and?;
            try apply not_elem_of_nil; by intros [=]
          | ]);
  apply NoDup_nil_2.

(** X14: in each router module no two routes have the same router, HTTP
    method and path, whatever the path constants and the server
    configuration are. *)
Theorem routes_have_distinct_keys (server_config : ServerConfiguration) :
  NoDup (route_key <$> code_repository_routes) ∧
  NoDup (route_key <$> deployment_routes server_config).
Proof.
  split.
  - unfold code_repositories_endpoints.routes. simpl. distinct_keys.
  - unfold pipeline_deployments_endpoints.routes.
    destruct (workload_manager_enabled server_config); simpl; distinct_keys.
Qed.

(** X15: a route registered on the workspace router has the path
    /{workspace_name_or_id} followed by the resource path, belongs to the
    create or the list handler, and the same handler is registered with the
    same HTTP method on the module's own router at the empty path. *)
Theorem workspace_routes_mirror_own_routes (server_config : ServerConfiguration)
    (r : Route) :
  route_router r = workspace_router →
  (r ∈ code_repository_routes →
   route_path r = "/{workspace_name_or_id}" +:+ CODE_REPOSITORIES ∧
   route_endpoint r ∈ ["create_code_repository"; "list_code_repositories"] ∧
   {| route_router := router (API +:+ VERSION_1 +:+ CODE_REPOSITORIES);
      route_verb := route_verb r; route_path := EmptyString;
      route_endpoint := route_endpoint r |} ∈ code_repository_routes) ∧
  (r ∈ deployment_routes server_config →
   route_path r = "/{workspace_name_or_id}" +:+ PIPELINE_DEPLOYMENTS ∧
   route_endpoint r ∈ ["create_deployment"; "list_deployments"] ∧
   {| route_router := router (API +:+ VERSION_1 +:+ PIPELINE_DEPLOYMENTS);
      route_verb := route_verb r; route_path := EmptyString;
      route_endpoint := route_endpoint r |} ∈ deployment_routes server_config).
Proof.
  intros Hr. split.
  - unfold code_repositories_endpoints.routes. intros Hin.
    repeat (apply elem_of_cons in Hin as [->|Hin]); try discriminate Hr;
      try (by apply elem_of_nil in Hin);
      (split; [done|]; split; [set_solver|]); simpl; set_solver.
  - unfold pipeline_deployments_endpoints.routes. intros Hin.
    apply elem_of_app in Hin as [Hin|Hin].
    + repeat (apply elem_of_cons in Hin as [->|Hin]); try discriminate Hr;
        try (by apply elem_of_nil in Hin);
        (split; [done|]; split; [set_solver|]); simpl; set_solver.
    + destruct (workload_manager_enabled server_config).
      * apply list_elem_of_singleton in Hin as ->. discriminate Hr.
      * by apply elem_of_nil in Hin.
Qed.
End Routes.

Lemma workspace_routes_mirror_own_routes_witness :
  {| route_router := router "/api/v1/code_repositories";
     route_verb := POST; route_path := EmptyString;
     route_endpoint := "create_code_repository" |}
  ∈ code_repositories_endpoints.routes "/api" "/v1" "/code_repositories".
Proof.
  destruct (workspace_routes_mirror_own_routes "/api" "/v1" "/code_repositories"
              "/pipeline_deployments" {| workload_manager_enabled := false |}
              {| route_router := workspace_router; route_verb := POST;
                 route_path := "/{workspace_name_or_id}/code_repositories";
                 route_endpoint := "create_code_repository" |})
    as [H _]; [reflexivity|].
  destruct H as (_ & _ & H); [by left|]. exact H.
Defined.
End RouteExtras.

(* ===================================================================== *)
(** * Facts about predict.py                                              *)
(* ===================================================================== *)

Module PredictExtras.
Import predict.

Section Service.
Variable dumps : Json → string.
Variable post : string → list (string * string) → string → Outcome string.
Variable loads : string → Outcome Json.
Variable format : Json → string.

Local Abbreviation main := (main dumps post loads format).
Local Abbreviation make_predict := (make_predict dumps post loads).

(** X16: what [main] does with the answer of the service: it prints the
    line with the first element of the has_diabetes entry of the answer when the answer
    is an object whose has_diabetes entry is a non-empty list (or string), and
    raises KeyError when the entry is missing or is an object, IndexError
    when it is empty, TypeError when it, or the answer, cannot be indexed. *)
Theorem main_outcome_by_answer_shape (response : Json) :
  make_predict data = Ok response →
  match response with
  | JDict items =>
      match assoc "has_diabetes" items with
      | None => main = Raise (KeyError "has_diabetes")
      | Some (JList []) | Some (JStr EmptyString) =>
          ∃ msg, main = Raise (IndexError msg)
      | Some (JList (first :: _)) =>
          main = Ok ["The probability of this person to have diabetes: "
                     +:+ format first]
      | Some (JStr (String c _)) =>
          main = Ok ["The probability of this person to have diabetes: "
                     +:+ format (JStr (String c EmptyString))]
      | Some (JDict _) => main = Raise (KeyError "0")
      | Some _ => ∃ msg, main = Raise (TypeError msg)
      end
  | _ => ∃ msg, main = Raise (TypeError msg)
  end.
Proof.
  intros H. unfold predict.main. rewrite H.
  destruct response as [|b|n|str|l|items]; simpl; try (by eexists).
  destruct (assoc "has_diabetes" items) as [[|b|n|[|c str]|[|v l]|d]|]; simpl;
    try done; by eexists.
Qed.

End Service.

Lemma main_outcome_by_answer_shape_witness :
  predict.main example_dumps example_post example_loads example_format
  = Ok ["The probability of this person to have diabetes: 0.73"].
Proof.
  apply (main_outcome_by_answer_shape example_dumps example_post example_loads
           example_format (JDict [("has_diabetes", JList [JNum "0.73"])])).
  reflexivity.
Defined.
End PredictExtras.
